(** * go-git-fs: a git commit served as an [io/fs] file system

    A shallow embedding of the two file-system adapters of the repository
    (the [Object]-based adapter with directory support, and the earlier
    file-only adapter of [fs.go]) together with the parts of the Go
    standard library and of go-git that they call.

    Conventions.
    - Go's [int], [int64] and [uint32] values are [Z]; no arithmetic is
      done on them by the adapters, only comparisons.
    - A Go call returning [(T, error)] whose [T] is nil on error is a
      computation in the monad [M]: a trace of the collaborator calls made,
      and either the error or the value.  Calls that return two meaningful
      values ([ReadDir], [Read]) return the pair as Go does.
    - A method with a pointer receiver that mutates it returns the updated
      receiver next to its results. *)

From Stdlib Require Import String Ascii List ZArith Bool Lia.
From ExtLib Require Import Structures.Monad.
Import ListNotations.
Import MonadNotation.

Local Open Scope string_scope.
Local Open Scope list_scope.
Local Open Scope monad_scope.

Set Implicit Arguments.

(* ------------------------------------------------------------------ *)
(** ** Go standard library: [strings] and [path] *)

Module strings.

(** [strings.HasPrefix(s, prefix)] *)
Definition HasPrefix (s prefix : string) : bool := String.prefix prefix s.

(** [strings.Split(s, "/")]: the pieces between the slashes; an empty
    string gives one empty piece. *)
Fixpoint SplitSlash (s : string) : list string :=
  match s with
  | EmptyString => [EmptyString]
  | String c rest =>
      if Ascii.eqb c "/"%char then EmptyString :: SplitSlash rest
      else match SplitSlash rest with
           | piece :: pieces => String c piece :: pieces
           | [] => [String c EmptyString]
           end
  end.

(** [strings.SplitN(s, "/", 2)]: the piece before the first slash and the
    rest after it, or the whole string alone when it has no slash. *)
Fixpoint SplitN2Slash (s : string) : list string :=
  match s with
  | EmptyString => [EmptyString]
  | String c rest =>
      if Ascii.eqb c "/"%char then [EmptyString; rest]
      else match SplitN2Slash rest with
           | piece :: pieces => String c piece :: pieces
           | [] => [String c EmptyString]
           end
  end.

(** [s[n:]]: the string without its first [n] bytes; [None] stands for the
    panic when [s] is shorter. *)
Fixpoint sliceFrom (n : nat) (s : string) : option string :=
  match n, s with
  | O, _ => Some s
  | S _, EmptyString => None
  | S n', String _ rest => sliceFrom n' rest
  end.

End strings.

Module path.

(** One step of [path.Clean] over the elements of a path: empty and [.]
    elements are dropped, [..] removes the element before it when there
    is one to remove, is dropped at the root of a rooted path, and is
    kept otherwise.  [kept] holds the elements kept so far, last first. *)
Definition cleanStep (rooted : bool) (kept : list string) (elem : string)
  : list string :=
  if (elem =? "") || (elem =? ".") then kept
  else if elem =? ".." then
    match kept with
    | top :: below => if top =? ".." then elem :: kept else below
    | [] => if rooted then [] else [elem]
    end
  else elem :: kept.

(** [path.Clean] *)
Definition Clean (p : string) : string :=
  if p =? "" then "."
  else
    let rooted := String.prefix "/" p in
    let kept := fold_left (cleanStep rooted) (strings.SplitSlash p) [] in
    let body := String.concat "/" (rev kept) in
    let out := if rooted then String.append "/" body else body in
    if out =? "" then "." else out.

(** [path.Join(a, b)]: the non-empty arguments joined by a slash, then
    cleaned; the empty string when both are empty. *)
Definition Join (a b : string) : string :=
  if (a =? "") && (b =? "") then ""
  else if a =? "" then Clean b
  else if b =? "" then Clean a
  else Clean (String.append a (String.append "/" b)).

(** [path.Base]: the last element of the path, trailing slashes removed. *)
Definition Base (p : string) : string :=
  if p =? "" then "."
  else
    match filter (fun e => negb (e =? "")) (strings.SplitSlash p) with
    | [] => "/"
    | e :: es => last es e
    end.

End path.

(* ------------------------------------------------------------------ *)
(** ** Errors *)

(** The error values the adapters create, test for or receive.  All of
    them are sentinel values or leaf errors, so [errors.Is] is equality. *)
Inductive error : Type :=
| ErrNotExist                      (* fs.ErrNotExist *)
| ErrPermission                    (* fs.ErrPermission *)
| EOF                              (* io.EOF *)
| ErrEntryNotFound                 (* object.ErrEntryNotFound *)
| ErrFileNotFound                  (* object.ErrFileNotFound *)
| ErrDirectoryNotFound             (* object.ErrDirectoryNotFound *)
| ErrObjectNotFound                (* plumbing.ErrObjectNotFound *)
| ErrMalformedMode (m : Z)         (* fmt.Errorf("malformed mode (%s)", m) *)
| Errorf (msg : string)            (* fmt.Errorf of the adapter *)
| ErrOther (msg : string).         (* any other failure of a collaborator *)

Module errors.

Definition eqb (a b : error) : bool :=
  match a, b with
  | ErrNotExist, ErrNotExist
  | ErrPermission, ErrPermission
  | EOF, EOF
  | ErrEntryNotFound, ErrEntryNotFound
  | ErrFileNotFound, ErrFileNotFound
  | ErrDirectoryNotFound, ErrDirectoryNotFound
  | ErrObjectNotFound, ErrObjectNotFound => true
  | ErrMalformedMode m, ErrMalformedMode m' => Z.eqb m m'
  | Errorf s, Errorf s' => String.eqb s s'
  | ErrOther s, ErrOther s' => String.eqb s s'
  | _, _ => false
  end.

(** [errors.Is(err, target)] *)
Definition Is (err target : error) : bool := eqb err target.

End errors.

(* ------------------------------------------------------------------ *)
(** ** [io/fs] file modes and go-git's [plumbing/filemode] *)

Module fs.
Local Open Scope Z_scope.

(** [fs.FileMode] is a [uint32]. *)
Definition FileMode := Z.

Definition ModeDir : FileMode := 2147483648.     (* 1 << 31 *)
Definition ModeSymlink : FileMode := 134217728.  (* 1 << 27 *)
Definition ModePerm : FileMode := 511.      (* 0777 *)

(** The other type bits, and [fs.ModeType], the mask of all of them. *)
Definition ModeDevice : FileMode := 67108864.      (* 1 << 26 *)
Definition ModeNamedPipe : FileMode := 33554432.   (* 1 << 25 *)
Definition ModeSocket : FileMode := 16777216.      (* 1 << 24 *)
Definition ModeCharDevice : FileMode := 2097152.   (* 1 << 21 *)
Definition ModeIrregular : FileMode := 524288.     (* 1 << 19 *)
Definition ModeType : FileMode :=
  Z.lor ModeDir
    (Z.lor ModeSymlink
       (Z.lor ModeNamedPipe
          (Z.lor ModeSocket
             (Z.lor ModeDevice (Z.lor ModeCharDevice ModeIrregular))))).

End fs.

Module filemode.
Local Open Scope Z_scope.

(** [filemode.FileMode] is a [uint32] holding the octal mode git stores
    in a tree entry. *)
Definition FileMode := Z.

Definition Empty : FileMode := 0.
Definition Dir : FileMode := 16384.         (* 0040000 *)
Definition Regular : FileMode := 33188.     (* 0100644 *)
Definition Deprecated : FileMode := 33204.  (* 0100664 *)
Definition Executable : FileMode := 33261.  (* 0100755 *)
Definition Symlink : FileMode := 40960.     (* 0120000 *)
Definition Submodule : FileMode := 57344.   (* 0160000 *)

(** [FileMode.ToOSFileMode]: the [switch] over the six modes git knows,
    and the error for any other value. *)
Definition ToOSFileMode (m : FileMode) : error + fs.FileMode :=
  if m =? Dir then inr (Z.lor fs.ModePerm fs.ModeDir)
  else if m =? Submodule then inr (Z.lor fs.ModePerm fs.ModeDir)
  else if m =? Regular then inr 420         (* 0644 *)
  else if m =? Deprecated then inr 420
  else if m =? Executable then inr 493      (* 0755 *)
  else if m =? Symlink then inr (Z.lor fs.ModePerm fs.ModeSymlink)
  else inl (ErrMalformedMode m).

(** [FileMode.IsFile] *)
Definition IsFile (m : FileMode) : bool :=
  (m =? Regular) || (m =? Deprecated) || (m =? Executable) || (m =? Symlink).

End filemode.

(* ------------------------------------------------------------------ *)
(** ** The object graph: go-git's [plumbing] and [plumbing/object] *)

(** go-git is a dependency of the repository, not part of it.  The
    definitions below follow its packages [plumbing/filemode] (above),
    [plumbing/object] ([object.go], [tree.go]) and [git] as far as the
    adapters call them; the object store, revision resolution and the
    history traversal stay arbitrary functions of a [git.Repository]. *)

Module plumbing.
(** [plumbing.Hash], the identifier of an object. *)
Definition Hash := Z.
End plumbing.

(** [time.Time], as seconds since the epoch. *)
Definition Time := Z.

(** [io.ReadCloser] over the bytes of a blob: what is still unread, and
    what [Close] will answer. *)
Record ReadCloser : Type := {
  unread : list Byte.byte;
  closeErr : option error
}.

(** [r.Read(b)] for a buffer of [len_b] bytes: the bytes put into [b] (their
    number is the [n] Go returns), the error, and the reader afterwards.
    At the end of the content the answer is no byte and [io.EOF]. *)
Definition ReadCloser_Read (rd : ReadCloser) (len_b : nat)
  : (list Byte.byte * option error) * ReadCloser :=
  match unread rd with
  | [] => (([], Some EOF), rd)
  | _ => ((firstn len_b (unread rd), None),
          {| unread := skipn len_b (unread rd); closeErr := closeErr rd |})
  end.

Module object.

Record Signature : Type := { When : Time }.

Record Commit : Type := {
  Hash : plumbing.Hash;
  Author : Signature;
  Committer : Signature;
  TreeHash : plumbing.Hash
}.

Record TreeEntry : Type := {
  Name : string;
  Mode : filemode.FileMode;
  entryHash : plumbing.Hash       (* TreeEntry.Hash *)
}.

Record Tree : Type := {
  treeHash : plumbing.Hash;       (* Tree.Hash *)
  Entries : list TreeEntry
}.

(** A blob knows its size; its bytes are only reached through [Reader],
    which can fail. *)
Record Blob : Type := {
  blobHash : plumbing.Hash;       (* Blob.Hash *)
  Size : Z;
  Reader : error + ReadCloser
}.

(** What [object.GetObject] can decode: the dynamic type its result is
    switched on. *)
Inductive Object : Type :=
| IsCommit (c : Commit)
| IsTree (t : Tree)
| IsBlob (b : Blob)
| IsTag.

(** [%T] of a decoded object *)
Definition typeName (o : Object) : string :=
  match o with
  | IsCommit _ => "*object.Commit"
  | IsTree _ => "*object.Tree"
  | IsBlob _ => "*object.Blob"
  | IsTag => "*object.Tag"
  end.

(** [object.File]: a blob with the path and mode it was found under. *)
Record File : Type := {
  fileName : string;              (* File.Name *)
  fileMode : filemode.FileMode;   (* File.Mode *)
  fileBlob : Blob
}.

(** [storer.EncodedObjectStorer], read with [plumbing.AnyObject]: the
    object stored under a hash, decoded, or the store's error. *)
Definition Storer := plumbing.Hash -> error + Object.

(** [object.GetObject(s, h)] *)
Definition GetObject (s : Storer) (h : plumbing.Hash) : error + Object := s h.

(** [object.GetCommit], [object.GetTree] and [object.GetBlob] ask the
    store for one type of object; an object of another type is not
    found. *)
Definition GetCommit (s : Storer) (h : plumbing.Hash) : error + Commit :=
  match s h with
  | inl err => inl err
  | inr (IsCommit c) => inr c
  | inr _ => inl ErrObjectNotFound
  end.

Definition GetTree (s : Storer) (h : plumbing.Hash) : error + Tree :=
  match s h with
  | inl err => inl err
  | inr (IsTree t) => inr t
  | inr _ => inl ErrObjectNotFound
  end.

Definition GetBlob (s : Storer) (h : plumbing.Hash) : error + Blob :=
  match s h with
  | inl err => inl err
  | inr (IsBlob b) => inr b
  | inr _ => inl ErrObjectNotFound
  end.

(** [Commit.Tree] *)
Definition Commit_Tree (s : Storer) (c : Commit) : error + Tree :=
  GetTree s (TreeHash c).

(** [Tree.entry]: the entry of that name in this tree.  The lookup goes
    through a map filled from [Entries] in order, so of two entries with
    one name the later is found. *)
Definition Tree_entry (t : Tree) (baseName : string) : error + TreeEntry :=
  match find (fun e => Name e =? baseName) (rev (Entries t)) with
  | Some e => inr e
  | None => inl ErrEntryNotFound
  end.

(** [Tree.dir]: the subtree of that name. *)
Definition Tree_dir (s : Storer) (t : Tree) (baseName : string)
  : error + Tree :=
  match Tree_entry t baseName with
  | inl _ => inl ErrDirectoryNotFound
  | inr e => GetTree s (entryHash e)
  end.

(** The walk of [Tree.FindEntry] over the elements of the path: every
    element but the last names a directory to descend into ([Tree.dir]),
    the last one names the entry ([Tree.entry]).  [strings.Split] never
    gives an empty list, so the first case is not reached. *)
Fixpoint findEntryFrom (s : Storer) (t : Tree) (pathParts : list string)
  : error + TreeEntry :=
  match pathParts with
  | [] => Tree_entry t ""
  | [last] => Tree_entry t last
  | part :: rest =>
      match Tree_dir s t part with
      | inl err => inl err
      | inr sub => findEntryFrom s sub rest
      end
  end.

(** [Tree.FindEntry] (its cache of visited subtrees left out) *)
Definition Tree_FindEntry (s : Storer) (t : Tree) (path : string)
  : error + TreeEntry :=
  findEntryFrom s t (strings.SplitSlash path).

(** [Tree.File] *)
Definition Tree_File (s : Storer) (t : Tree) (path : string) : error + File :=
  match Tree_FindEntry s t path with
  | inl _ => inl ErrFileNotFound
  | inr e =>
      match GetBlob s (entryHash e) with
      | inl err =>
          if errors.Is err ErrObjectNotFound then inl ErrFileNotFound
          else inl err
      | inr blob => inr {| fileName := path; fileMode := Mode e; fileBlob := blob |}
      end
  end.

End object.

Module git.

(** [git.LogOptions]: only the fields the adapters set. *)
Record LogOptions : Type := {
  From : plumbing.Hash;
  PathFilter : option (string -> bool);
  FileName : option string
}.

(** [object.CommitIter]: the commits still to come, each step of the
    traversal being fallible. *)
Definition CommitIter := list (error + object.Commit).

(** [*git.Repository], as far as the adapters use it: the object store
    ([repo.Storer], read by hash), revision resolution and the history
    traversal.  The store answers with the decoded object. *)
Record Repository : Type := {
  Storer : object.Storer;
  ResolveRevision : string -> error + plumbing.Hash;
  Log : LogOptions -> error + CommitIter
}.

(** [CommitIter.Next]: the next commit, [io.EOF] when none is left. *)
Definition Next (it : CommitIter) : error + object.Commit :=
  match it with
  | [] => inl EOF
  | step :: _ => step
  end.

(** [Repository.CommitObject] *)
Definition CommitObject (repo : Repository) (h : plumbing.Hash)
  : error + object.Commit :=
  object.GetCommit (Storer repo) h.

End git.

(* ------------------------------------------------------------------ *)
(** ** Calls into the collaborators, traced *)

(** One entry per call an adapter makes into go-git. *)
Inductive Event : Type :=
| CallResolveRevision (rev : string)
| CallCommitObject (h : plumbing.Hash)
| CallCommitTree (commit : plumbing.Hash)
| CallGetObject (h : plumbing.Hash)
| CallFindEntry (name : string)
| CallTreeFile (name : string)
| CallBlobReader (blob : plumbing.Hash)
| CallLog (opts : git.LogOptions)
| CallNext
| CallIterClose.

(** A computation that calls collaborators and may fail: the calls made,
    in order, and the error or the value. *)
Definition M (A : Type) : Type := (list Event * (error + A))%type.

#[global] Instance Monad_M : Monad M := {|
  ret _ a := ([], inr a);
  bind _ _ m k :=
    match m with
    | (t, inl err) => (t, inl err)
    | (t, inr a) => let (t', res) := k a in (t ++ t', res)
    end
|}.

(** [return nil, err] *)
Definition fail {A : Type} (err : error) : M A := ([], inl err).

(** A call into a collaborator, with its answer. *)
Definition call {A : Type} (ev : Event) (answer : error + A) : M A :=
  ([ev], answer).

(** [c, err := it.Next(); it.Close()]: the iterator is closed before the
    error is looked at. *)
Definition NextThenClose (it : git.CommitIter) : M object.Commit :=
  ([CallNext; CallIterClose], git.Next it).

Definition calls {A : Type} (m : M A) : list Event := fst m.
Definition outcome {A : Type} (m : M A) : error + A := snd m.

(* ------------------------------------------------------------------ *)
(** ** The [Object]-based adapter: files and directories *)

Module ObjectFS.

(** [type Tree struct]: the snapshot.  [hash] is the commit the revision
    resolved to, [tree] is that commit's tree. *)
Record Tree : Type := {
  t_hash : plumbing.Hash;
  t_repo : git.Repository;
  t_tree : object.Tree
}.

(** [type Object struct]: file, directory entry and file info in one.
    A nil [r] is [None]; a nil [te] is the empty list. *)
Record Object : Type := {
  commit : plumbing.Hash;
  hash : plumbing.Hash;
  repo : git.Repository;
  fullName : string;
  mode : fs.FileMode;
  size : Z;
  isDir : bool;
  modTime : Time;
  r : option ReadCloser;
  te : list object.TreeEntry
}.

(** [o.te = te'] *)
Definition set_te (o : Object) (te' : list object.TreeEntry) : Object :=
  {| commit := commit o; hash := hash o; repo := repo o;
     fullName := fullName o; mode := mode o; size := size o;
     isDir := isDir o; modTime := modTime o; r := r o; te := te' |}.

(** [o.r] after a read *)
Definition set_r (o : Object) (r' : option ReadCloser) : Object :=
  {| commit := commit o; hash := hash o; repo := repo o;
     fullName := fullName o; mode := mode o; size := size o;
     isDir := isDir o; modTime := modTime o; r := r'; te := te o |}.

(** [func NewFS] *)
Definition NewFS (repo : git.Repository) (rev : string) : M Tree :=
  hash <- call (CallResolveRevision rev) (git.ResolveRevision repo rev) ;;
  commit <- call (CallCommitObject hash) (git.CommitObject repo hash) ;;
  tree <- call (CallCommitTree (object.Hash commit))
               (object.Commit_Tree (git.Storer repo) commit) ;;
  ret {| t_tree := tree; t_repo := repo; t_hash := hash |}.

(** The [git.LogOptions] both constructors build: the traversal starts
    at [commit]; a directory other than the root filters by path prefix,
    a file asks for its own name. *)
Definition logOptions (commit : plumbing.Hash) (isDir : bool)
           (fullName : string) : git.LogOptions :=
  let logOpt := {| git.From := commit;
                   git.PathFilter := None;
                   git.FileName := None |} in
  if isDir then
    if negb (fullName =? ".") then
      {| git.From := git.From logOpt;
         git.PathFilter := Some (fun s => strings.HasPrefix s fullName);
         git.FileName := git.FileName logOpt |}
    else logOpt
  else
    {| git.From := git.From logOpt;
       git.PathFilter := git.PathFilter logOpt;
       git.FileName := Some fullName |}.

(** [func NewFileInfo]: the light constructor *)
Definition NewFileInfo (commit hash : plumbing.Hash) (repo : git.Repository)
           (fullName : string) (mode : filemode.FileMode) : M Object :=
  osMode <- ([], filemode.ToOSFileMode mode) ;;
  obj <- call (CallGetObject hash) (object.GetObject (git.Storer repo) hash) ;;
  '(size, isDir) <-
    match obj with
    | object.IsTree _ => ret (0%Z, true)
    | object.IsCommit _ => ret (0%Z, true)
    | object.IsBlob v => ret (object.Size v, false)
    | _ => fail (Errorf (String.append "cannot get file info from "
                                       (object.typeName obj)))
    end ;;
  let logOpt := logOptions commit isDir fullName in
  it <- call (CallLog logOpt) (git.Log repo logOpt) ;;
  c <- NextThenClose it ;;
  ret {| commit := commit; hash := hash; repo := repo; fullName := fullName;
         mode := osMode; modTime := object.When (object.Author c);
         size := size; isDir := isDir;
         r := None; te := [] |}.

(** [func NewFile]: the heavy constructor *)
Definition NewFile (commit hash : plumbing.Hash) (repo : git.Repository)
           (fullName : string) (mode : filemode.FileMode) : M Object :=
  osMode <- ([], filemode.ToOSFileMode mode) ;;
  obj <- call (CallGetObject hash) (object.GetObject (git.Storer repo) hash) ;;
  '(size, isDir, r, te) <-
    match obj with
    | object.IsTree v => ret (0%Z, true, None, object.Entries v)
    | object.IsCommit v =>
        tree <- call (CallCommitTree (object.Hash v))
                     (object.Commit_Tree (git.Storer repo) v) ;;
        ret (0%Z, true, None, object.Entries tree)
    | object.IsBlob v =>
        r <- call (CallBlobReader (object.blobHash v)) (object.Reader v) ;;
        ret (object.Size v, false, Some r, [])
    | _ => fail (Errorf (String.append "cannot get file info from "
                                       (object.typeName obj)))
    end ;;
  let logOpt := logOptions commit isDir fullName in
  it <- call (CallLog logOpt) (git.Log repo logOpt) ;;
  c <- NextThenClose it ;;
  ret {| commit := commit; hash := hash; repo := repo; fullName := fullName;
         mode := osMode; modTime := object.When (object.Author c);
         size := size; isDir := isDir;
         r := r; te := te |}.

(** [func (tree *Tree) Open] (the deferred log line left out) *)
Definition Open (tree : Tree) (name : string) : M Object :=
  '(mode, hash) <-
    (if path.Clean name =? "." then ret (filemode.Dir, t_hash tree)
     else
       match call (CallFindEntry name)
                  (object.Tree_FindEntry (git.Storer (t_repo tree))
                                         (t_tree tree) name) with
       | (t, inl err) =>
           if errors.Is err ErrEntryNotFound || errors.Is err ErrFileNotFound
           then (t, inl ErrNotExist)
           else (t, inl err)
       | (t, inr f) => (t, inr (object.Mode f, object.entryHash f))
       end) ;;
  NewFile (t_hash tree) hash (t_repo tree) (path.Clean name) mode.

(** The accessors of [fs.FileInfo] and [fs.DirEntry] *)
Definition Name (o : Object) : string := path.Base (fullName o).
Definition Size (o : Object) : Z := size o.
Definition Mode (o : Object) : fs.FileMode := mode o.
Definition ModTime (o : Object) : Time := modTime o.
Definition IsDir (o : Object) : bool := isDir o.

(** [Info] and [Stat] answer with the object itself and no error. *)
Definition Info (o : Object) : Object * option error := (o, None).
Definition Stat (o : Object) : Object * option error := (o, None).

(** The loop of [ReadDir] over the entries sliced off the cursor: it
    stops at the first child whose file info cannot be built. *)
Fixpoint readDirLoop (o : Object) (te : list object.TreeEntry)
  : M (list Object) :=
  match te with
  | [] => ret []
  | v :: rest =>
      d <- NewFileInfo (commit o) (object.entryHash v) (repo o)
                       (path.Join (fullName o) (object.Name v))
                       (object.Mode v) ;;
      ds <- readDirLoop o rest ;;
      ret (d :: ds)
  end.

(** [func (o *Object) ReadDir]: the calls made, the two results, and the
    object afterwards. *)
Definition ReadDir (o : Object) (n : Z)
  : list Event * ((list Object * option error) * Object) :=
  if negb (isDir o) then ([], (([], Some ErrPermission), o))
  else if Nat.eqb (length (te o)) 0 then ([], (([], Some EOF), o))
  else
    let n := if ((n <? 0) || (Z.of_nat (length (te o)) <? n))%Z
             then Z.of_nat (length (te o)) else n in
    let te := firstn (Z.to_nat n) (te o) in
    let o' := set_te o (skipn (Z.to_nat n) (ObjectFS.te o)) in
    match readDirLoop o' te with
    | (t, inl err) => (t, (([], Some err), o'))
    | (t, inr ret) => (t, ((ret, None), o'))
    end.

(** What a method call can do besides returning. *)
Inductive Outcome (A : Type) : Type :=
| Returns (a : A)
| Panics.
Arguments Panics {A}.

(** [func (o *Object) Read], for a buffer of [len_b] bytes: the bytes
    put into the buffer, the error, and the object afterwards.  On a
    light file object [o.r] is nil and the call panics. *)
Definition Read (o : Object) (len_b : nat)
  : Outcome ((list Byte.byte * option error) * Object) :=
  if isDir o then Returns (([], Some ErrPermission), o)
  else
    match r o with
    | None => Panics
    | Some rd =>
        let (res, rd') := ReadCloser_Read rd len_b in
        Returns (res, set_r o (Some rd'))
    end.

(** [func (o *Object) Close] *)
Definition Close (o : Object) : Outcome (option error * Object) :=
  if isDir o then Returns (None, set_te o [])
  else
    match r o with
    | None => Panics
    | Some rd => Returns (closeErr rd, o)
    end.

(** [func (o *Object) Type] *)
Definition Type_ (o : Object) : fs.FileMode := Z.land (mode o) fs.ModeType.

End ObjectFS.

(* ------------------------------------------------------------------ *)
(** ** The file-only adapter of [fs.go] *)

Module FileFS.

(** [type Tree struct] *)
Record Tree : Type := {
  tree : object.Tree;
  repo : git.Repository;
  hash : plumbing.Hash
}.

(** [type FileInfo struct] *)
Record FileInfo : Type := {
  name : string;
  size : Z;
  mode : fs.FileMode;
  modTime : Time;
  isDir : bool
}.

(** [type File struct]; a nil [r] is [None]. *)
Record File : Type := {
  fi : FileInfo;
  r : option ReadCloser
}.

(** [func NewFS] (the log lines left out) *)
Definition NewFS (repo : git.Repository) (rev : string) : M Tree :=
  hash <- call (CallResolveRevision rev) (git.ResolveRevision repo rev) ;;
  commit <- call (CallCommitObject hash) (git.CommitObject repo hash) ;;
  tree <- call (CallCommitTree (object.Hash commit))
               (object.Commit_Tree (git.Storer repo) commit) ;;
  ret {| tree := tree; repo := repo; hash := hash |}.

(** [func (tree *Tree) Open] (the log lines left out) *)
Definition Open (tree : Tree) (name : string) : M File :=
  f <- call (CallTreeFile name)
            (object.Tree_File (git.Storer (repo tree)) (FileFS.tree tree) name) ;;
  r <- (if filemode.IsFile (object.fileMode f)
        then rd <- call (CallBlobReader (object.blobHash (object.fileBlob f)))
                        (object.Reader (object.fileBlob f)) ;;
             ret (Some rd)
        else ret None) ;;
  fsMode <- ([], filemode.ToOSFileMode (object.fileMode f)) ;;
  let logOpt := {| git.From := hash tree;
                   git.PathFilter := None;
                   git.FileName := Some name |} in
  it <- call (CallLog logOpt) (git.Log (repo tree) logOpt) ;;
  c <- NextThenClose it ;;
  ret {| fi := {| name := object.fileName f;
                  size := object.Size (object.fileBlob f);
                  mode := fsMode;
                  modTime := object.When (object.Committer c);
                  isDir := (0 <? Z.land fs.ModeDir fsMode)%Z |};
         r := r |}.

(** [func (f *File) Stat] *)
Definition Stat (f : File) : FileInfo * option error := (fi f, None).


(** The accessors of [FileInfo] *)
Definition Name (fi : FileInfo) : string := name fi.
Definition Size (fi : FileInfo) : Z := size fi.
Definition Mode (fi : FileInfo) : fs.FileMode := mode fi.
Definition ModTime (fi : FileInfo) : Time := modTime fi.
Definition IsDir (fi : FileInfo) : bool := isDir fi.

(** [func (f *File) Read], for a buffer of [len_b] bytes; a nil [f.r]
    makes the call panic. *)
Definition Read (f : File) (len_b : nat)
  : ObjectFS.Outcome ((list Byte.byte * option error) * File) :=
  match r f with
  | None => ObjectFS.Panics
  | Some rd =>
      let (res, rd') := ReadCloser_Read rd len_b in
      ObjectFS.Returns (res, {| fi := fi f; r := Some rd' |})
  end.

(** [func (f *File) Close] *)
Definition Close (f : File) : ObjectFS.Outcome (option error * File) :=
  match r f with
  | None => ObjectFS.Panics
  | Some rd => ObjectFS.Returns (closeErr rd, f)
  end.

End FileFS.

(* ------------------------------------------------------------------ *)
(** ** The demo server's [/tree/] handler (first version) *)

Module TreeServer.

(** What the handler does with a request, the HTTP machinery left out:
    it answers an internal server error carrying the error, or hands the
    request to a file server over the snapshot with the URL path set to
    [urlPath]. *)
Inductive Response : Type :=
| InternalServerError (err : error)
| FileServer (snapshot : FileFS.Tree) (urlPath : string).

(** [func(w http.ResponseWriter, r *http.Request)] registered for
    [/tree/], as a function of [r.URL.Path] (the log line left out).
    Slicing a path shorter than [/tree/] and indexing [arr[1]] when the
    split gave one piece panic. *)
Definition handle (repo : git.Repository) (urlPath : string)
  : list Event * ObjectFS.Outcome Response :=
  match strings.sliceFrom (String.length "/tree/") urlPath with
  | None => ([], ObjectFS.Panics)
  | Some p =>
      let arr := strings.SplitN2Slash p in
      match FileFS.NewFS repo (hd EmptyString arr) with
      | (t, inl err) => (t, ObjectFS.Returns (InternalServerError err))
      | (t, inr fs) =>
          match arr with
          | _ :: rest :: _ => (t, ObjectFS.Returns (FileServer fs rest))
          | _ => (t, ObjectFS.Panics)
          end
      end
  end.

End TreeServer.

(* ------------------------------------------------------------------ *)
(** ** A small repository to run the adapters on *)

Module Demo.
Local Open Scope Z_scope.

Definition blob (h : plumbing.Hash) (content : list Byte.byte) : object.Object :=
  object.IsBlob {| object.blobHash := h;
                   object.Size := Z.of_nat (length content);
                   object.Reader := inr {| unread := content; closeErr := None |} |}.

Definition entry (name : string) (m : filemode.FileMode) (h : plumbing.Hash)
  : object.TreeEntry :=
  {| object.Name := name; object.Mode := m; object.entryHash := h |}.

(** Three commits, most recent first; the author and the committer dates
    of each differ, as after a rebase. *)
Definition c3 : object.Commit :=
  {| object.Hash := 1; object.Author := {| object.When := 300 |};
     object.Committer := {| object.When := 350 |}; object.TreeHash := 10 |}.
Definition c2 : object.Commit :=
  {| object.Hash := 2; object.Author := {| object.When := 200 |};
     object.Committer := {| object.When := 250 |}; object.TreeHash := 20 |}.
Definition c1 : object.Commit :=
  {| object.Hash := 3; object.Author := {| object.When := 100 |};
     object.Committer := {| object.When := 150 |}; object.TreeHash := 30 |}.

(** The tree of [c3]: two files and a directory; the directory holds a
    file, a submodule whose commit is not in this store, and a file. *)
Definition rootTree : object.Tree :=
  {| object.treeHash := 10;
     object.Entries := [ entry "a.go" filemode.Regular 11;
                         entry "b.go" filemode.Regular 12;
                         entry "docs" filemode.Dir 13 ] |}.
Definition docsTree : object.Tree :=
  {| object.treeHash := 13;
     object.Entries := [ entry "readme.md" filemode.Regular 14;
                         entry "vendor" filemode.Submodule 99;
                         entry "z.md" filemode.Regular 15 ] |}.

Definition store : object.Storer := fun h =>
  if h =? 1 then inr (object.IsCommit c3)
  else if h =? 2 then inr (object.IsCommit c2)
  else if h =? 3 then inr (object.IsCommit c1)
  else if h =? 10 then inr (object.IsTree rootTree)
  else if h =? 11 then inr (blob 11 [Byte.x70; Byte.x6b; Byte.x67])
  else if h =? 12 then inr (blob 12 [Byte.x6f; Byte.x6b])
  else if h =? 13 then inr (object.IsTree docsTree)
  else if h =? 14 then inr (blob 14 [Byte.x23])
  else if h =? 15 then inr (blob 15 [])
  else inl ErrObjectNotFound.

(** The paths each commit changed. *)
Definition history : list (object.Commit * list string) :=
  [ (c3, ["docs/readme.md"]);
    (c2, ["b.go"; "docs/z.md"]);
    (c1, ["a.go"; "b.go"; "docs/readme.md"]) ].

(** The traversal from [c3]: the commits, most recent first, that changed
    a path the options select. *)
Definition log (opts : git.LogOptions) : error + git.CommitIter :=
  if git.From opts =? 1 then
    let selected (paths : list string) : bool :=
      match git.FileName opts, git.PathFilter opts with
      | Some f, _ => existsb (String.eqb f) paths
      | None, Some keep => existsb keep paths
      | None, None => true
      end in
    inr (map (fun cp => inr (fst cp))
             (filter (fun cp => selected (snd cp)) history))
  else inl ErrObjectNotFound.

Definition repo : git.Repository :=
  {| git.Storer := store;
     git.ResolveRevision := fun rev =>
       if (rev =? "main")%string then inr 1 else inl (ErrOther "reference not found");
     git.Log := log |}.

(** The snapshot of [main], as [NewFS] builds it. *)
Definition snapshot : ObjectFS.Tree :=
  {| ObjectFS.t_hash := 1; ObjectFS.t_repo := repo; ObjectFS.t_tree := rootTree |}.

Definition fileSnapshot : FileFS.Tree :=
  {| FileFS.tree := rootTree; FileFS.repo := repo; FileFS.hash := 1 |}.

(** What the adapters answer on this repository. *)
Definition info (h : plumbing.Hash) (fullName : string) (m : fs.FileMode)
           (size : Z) (isDir : bool) (modTime : Time) : ObjectFS.Object :=
  {| ObjectFS.commit := 1; ObjectFS.hash := h; ObjectFS.repo := repo;
     ObjectFS.fullName := fullName; ObjectFS.mode := m; ObjectFS.size := size;
     ObjectFS.isDir := isDir; ObjectFS.modTime := modTime;
     ObjectFS.r := None; ObjectFS.te := [] |}.

Definition dirMode : fs.FileMode := Z.lor fs.ModePerm fs.ModeDir.

(** [Open(".")], [Open("docs")] and [Open("docs/readme.md")] *)
Definition rootDir : ObjectFS.Object :=
  ObjectFS.set_te (info 1 "." dirMode 0 true 300) (object.Entries rootTree).
Definition docsDir : ObjectFS.Object :=
  ObjectFS.set_te (info 13 "docs" dirMode 0 true 300) (object.Entries docsTree).
Definition readmeFile : ObjectFS.Object :=
  ObjectFS.set_r (info 14 "docs/readme.md" 420 1 false 300)
                 (Some {| unread := [Byte.x23]; closeErr := None |}).

(** The light entry of [docs/readme.md] *)
Definition readmeInfo : ObjectFS.Object :=
  info 14 "docs/readme.md" 420 1 false 300.

(** The light entries of the root directory, in stored order. *)
Definition rootListing : list ObjectFS.Object :=
  [ info 11 "a.go" 420 3 false 100;
    info 12 "b.go" 420 2 false 200;
    info 13 "docs" dirMode 0 true 300 ].

(** The root directory once its cursor is used up. *)
Definition rootDrained : ObjectFS.Object := ObjectFS.set_te rootDir [].

(** [Open("a.go")] of the adapter of [fs.go] *)
Definition aFile : FileFS.File :=
  {| FileFS.fi := {| FileFS.name := "a.go"; FileFS.size := 3;
                     FileFS.mode := 420; FileFS.modTime := 150;
                     FileFS.isDir := false |};
     FileFS.r := Some {| unread := [Byte.x70; Byte.x6b; Byte.x67];
                         closeErr := None |} |}.

(** The same repository with an annotated tag stored under hash 40, and
    one whose history traversal finds no commit. *)
Definition tagged : git.Repository :=
  {| git.Storer := fun h => if h =? 40 then inr object.IsTag else store h;
     git.ResolveRevision := git.ResolveRevision repo;
     git.Log := log |}.

Definition withoutHistory : git.Repository :=
  {| git.Storer := store;
     git.ResolveRevision := git.ResolveRevision repo;
     git.Log := fun _ => inr [] |}.

End Demo.

(* ------------------------------------------------------------------ *)
(** ** Notions of the specification *)

(** A graph object that is presented as a directory: a tree or a commit. *)
Definition directoryLike (obj : object.Object) : bool :=
  match obj with
  | object.IsTree _ | object.IsCommit _ => true
  | _ => false
  end.

(** History queries: by exact file path, by path prefix, and unfiltered. *)
Definition fileHistory (from : plumbing.Hash) (file : string) : git.LogOptions :=
  {| git.From := from; git.PathFilter := None; git.FileName := Some file |}.

Definition prefixHistory (from : plumbing.Hash) (prefix : string)
  : git.LogOptions :=
  {| git.From := from;
     git.PathFilter := Some (fun s => strings.HasPrefix s prefix);
     git.FileName := None |}.

Definition wholeHistory (from : plumbing.Hash) : git.LogOptions :=
  {| git.From := from; git.PathFilter := None; git.FileName := None |}.

(** The query the specification gives an entry: by file path for a file,
    by prefix for a directory, unfiltered for the root directory. *)
Definition historyQuery (from : plumbing.Hash) (isDir : bool) (fullName : string)
  : git.LogOptions :=
  if isDir then
    if fullName =? "." then wholeHistory from else prefixHistory from fullName
  else fileHistory from fullName.

(** The first commit a history traversal produces. *)
Definition firstCommit (repo : git.Repository) (query : git.LogOptions)
  : error + object.Commit :=
  match git.Log repo query with
  | inl err => inl err
  | inr it => git.Next it
  end.

(** The light entry the enumeration of the directory [o] builds for the
    child [v]. *)
Definition childInfo (o : ObjectFS.Object) (v : object.TreeEntry)
  : M ObjectFS.Object :=
  ObjectFS.NewFileInfo (ObjectFS.commit o) (object.entryHash v) (ObjectFS.repo o)
                       (path.Join (ObjectFS.fullName o) (object.Name v))
                       (object.Mode v).

(** [ReadDir] called once per count of [ns], each call on the object the
    call before left: the results of the calls, in order, and the object
    after the last one. *)
Fixpoint readDirs (o : ObjectFS.Object) (ns : list Z)
  : list (list ObjectFS.Object * option error) * ObjectFS.Object :=
  match ns with
  | [] => ([], o)
  | n :: rest =>
      let '(_, (res, o')) := ObjectFS.ReadDir o n in
      let (ress, o'') := readDirs o' rest in
      (res :: ress, o'')
  end.

(** All the entries a sequence of calls returned, in order. *)
Definition entriesOf (ress : list (list ObjectFS.Object * option error))
  : list ObjectFS.Object :=
  concat (map fst ress).

(** The number of entries a call with count [n] slices off a cursor of
    [len] entries. *)
Definition sliced (len : nat) (n : Z) : nat :=
  if ((n <? 0) || (Z.of_nat len <? n))%Z then len else Z.to_nat n.

(** No collaborator of the repository answers with [fs.ErrNotExist]. *)
Definition foreignErrors (repo : git.Repository) : Prop :=
  (forall h, git.Storer repo h <> inl ErrNotExist) /\
  (forall opts, git.Log repo opts <> inl ErrNotExist) /\
  (forall opts it, git.Log repo opts = inr it -> git.Next it <> inl ErrNotExist).

(** The byte length a graph object is given: a blob's declared size, zero
    for the others. *)
Definition objectSize (obj : object.Object) : Z :=
  match obj with
  | object.IsBlob v => object.Size v
  | _ => 0%Z
  end.

(** The fields [Stat] shows, as both constructors fill them from the mode
    translation [osMode], the decoded object [obj] and the commit [c] the
    history gave. *)
Definition statFields (o : ObjectFS.Object) (commit hash : plumbing.Hash)
           (repo : git.Repository) (fullName : string) (osMode : fs.FileMode)
           (obj : object.Object) (c : object.Commit) : Prop :=
  ObjectFS.commit o = commit /\ ObjectFS.hash o = hash /\
  ObjectFS.repo o = repo /\ ObjectFS.fullName o = fullName /\
  ObjectFS.mode o = osMode /\
  ObjectFS.size o = objectSize obj /\
  ObjectFS.isDir o = directoryLike obj /\
  ObjectFS.modTime o = object.When (object.Author c).

(** [sub] holds some of the elements of [l], in the order of [l]. *)
Inductive subseq {A : Type} : list A -> list A -> Prop :=
| subseq_nil : subseq [] []
| subseq_skip (x : A) (sub l : list A) : subseq sub l -> subseq sub (x :: l)
| subseq_keep (x : A) (sub l : list A) : subseq sub l -> subseq (x :: sub) (x :: l).

(** [ds] are the light entries of the children [vs] of the directory [o],
    one for each child and in the order of the children. *)
Definition listed (o : ObjectFS.Object) (vs : list object.TreeEntry)
           (ds : list ObjectFS.Object) : Prop :=
  Forall2 (fun v d => outcome (childInfo o v) = inr d) vs ds.

(** The result by which [ReadDir] signals the end of the sequence. *)
Definition endOfSequence : list ObjectFS.Object * option error :=
  ([], Some EOF).


(** Descending from the tree [t] through the directories [dirs], as
    [Tree.FindEntry] does for the elements before the last. *)
Fixpoint descend (s : object.Storer) (t : object.Tree) (dirs : list string)
  : error + object.Tree :=
  match dirs with
  | [] => inr t
  | dir :: rest =>
      match object.Tree_dir s t dir with
      | inl err => inl err
      | inr sub => descend s sub rest
      end
  end.

(** An object without its content stream and its child list. *)
Definition withoutContent (o : ObjectFS.Object) : ObjectFS.Object :=
  ObjectFS.set_r (ObjectFS.set_te o []) None.

(** The fields of an object that [Stat] shows or that locate it: all but
    the content stream and the cursor. *)
Definition sameEntry (o o' : ObjectFS.Object) : Prop :=
  withoutContent o = withoutContent o'.

(** A string without a slash. *)
Fixpoint noSlash (s : string) : bool :=
  match s with
  | EmptyString => true
  | String c rest => negb (Ascii.eqb c "/"%char) && noSlash rest
  end.

(** A name a tree entry can carry: not empty, without a slash, and not
    one of the two dot names. *)
Definition plainName (s : string) : bool :=
  noSlash s && negb (s =? "") && negb (s =? ".") && negb (s =? "..").

(** The calls [NewFS] may make. *)
Definition snapshotCall (ev : Event) : bool :=
  match ev with
  | CallResolveRevision _ | CallCommitObject _ | CallCommitTree _ => true
  | _ => false
  end.

(** The calls of a trace that read an object from the store. *)
Definition isStoreRead (ev : Event) : bool :=
  match ev with
  | CallGetObject _ | CallCommitObject _ | CallCommitTree _
  | CallBlobReader _ => true
  | _ => false
  end.

(* ------------------------------------------------------------------ *)
(** ** Reasoning about traced computations *)

Section Monad.
Context {A B : Type}.

Lemma outcome_bind_inr (m : M A) (k : A -> M B) (b : B) :
  outcome (bind m k) = inr b ->
  exists a, outcome m = inr a /\ outcome (k a) = inr b.
Proof.
  destruct m as [t [err | a]]; cbn; [discriminate |].
  destruct (k a) as [t' res] eqn:Hk; cbn. intros ->.
  exists a. rewrite Hk. auto.
Qed.

Lemma outcome_bind_ok (m : M A) (k : A -> M B) (a : A) :
  outcome m = inr a -> outcome (bind m k) = outcome (k a).
Proof.
  destruct m as [t [err | a']]; cbn; [discriminate |].
  intros [= ->]. destruct (k a); reflexivity.
Qed.

Lemma outcome_bind_err (m : M A) (k : A -> M B) (err : error) :
  outcome m = inl err -> outcome (bind m k) = inl err.
Proof.
  destruct m as [t [err' | a]]; cbn; [|discriminate].
  intros [= ->]. reflexivity.
Qed.

Lemma calls_bind (m : M A) (k : A -> M B) :
  calls (bind m k) =
  calls m ++ match outcome m with
             | inl _ => []
             | inr a => calls (k a)
             end.
Proof.
  destruct m as [t [err | a]]; cbn; [now rewrite app_nil_r |].
  destruct (k a); reflexivity.
Qed.

End Monad.

Lemma outcome_ret {A : Type} (a : A) : outcome (ret a) = inr a.
Proof. reflexivity. Qed.

Lemma outcome_ret_inv {A : Type} (a b : A) :
  outcome (ret a) = inr b -> a = b.
Proof. cbv. congruence. Qed.

Lemma outcome_call {A : Type} (ev : Event) (answer : error + A) :
  outcome (call ev answer) = answer.
Proof. reflexivity. Qed.

(** Take the successful run of a sequence of binds apart. *)
Ltac bind_inv H :=
  let a := fresh "a" in
  let Ha := fresh "Ha" in
  lazymatch type of H with
  | outcome (bind ?m ?k) = inr ?b =>
      apply (@outcome_bind_inr _ _ m k b) in H; destruct H as (a & Ha & H)
  end.

(* ------------------------------------------------------------------ *)
(** ** What the two constructors build *)

Lemma logOptions_historyQuery (commit : plumbing.Hash) (isDir : bool)
      (fullName : string) :
  ObjectFS.logOptions commit isDir fullName = historyQuery commit isDir fullName.
Proof.
  unfold ObjectFS.logOptions, historyQuery.
  destruct isDir; [destruct (fullName =? ".") |]; reflexivity.
Qed.

Lemma firstCommit_intro (repo : git.Repository) (query : git.LogOptions)
      (it : git.CommitIter) (c : object.Commit) :
  git.Log repo query = inr it -> git.Next it = inr c ->
  firstCommit repo query = inr c.
Proof. unfold firstCommit. now intros -> ->. Qed.

Lemma NewFileInfo_inv commit hash repo fullName mode o :
  outcome (ObjectFS.NewFileInfo commit hash repo fullName mode) = inr o ->
  exists osMode obj c,
    filemode.ToOSFileMode mode = inr osMode /\
    git.Storer repo hash = inr obj /\
    obj <> object.IsTag /\
    firstCommit repo (historyQuery commit (directoryLike obj) fullName) = inr c /\
    statFields o commit hash repo fullName osMode obj c /\
    ObjectFS.r o = None /\ ObjectFS.te o = [].
Proof.
  unfold ObjectFS.NewFileInfo. intros H.
  bind_inv H. bind_inv H. bind_inv H. destruct a1 as [size isDir].
  bind_inv H. bind_inv H.
  cbn in Ha, Ha0, Ha2, Ha3, H. injection H as <-.
  rewrite logOptions_historyQuery in Ha2.
  exists a, a0, a2.
  assert (Hobj : a0 <> object.IsTag /\ size = objectSize a0
                 /\ isDir = directoryLike a0).
  { destruct a0; cbn in Ha1; try discriminate;
      injection Ha1 as <- <-; repeat split; discriminate. }
  destruct Hobj as (Htag & -> & ->).
  repeat split; auto.
  eapply firstCommit_intro; eauto.
Qed.

Lemma NewFile_inv commit hash repo fullName mode o :
  outcome (ObjectFS.NewFile commit hash repo fullName mode) = inr o ->
  exists osMode obj c,
    filemode.ToOSFileMode mode = inr osMode /\
    git.Storer repo hash = inr obj /\
    obj <> object.IsTag /\
    firstCommit repo (historyQuery commit (directoryLike obj) fullName) = inr c /\
    statFields o commit hash repo fullName osMode obj c /\
    match obj with
    | object.IsTree v => ObjectFS.r o = None /\ ObjectFS.te o = object.Entries v
    | object.IsCommit v =>
        exists tree, object.Commit_Tree (git.Storer repo) v = inr tree /\
                     ObjectFS.r o = None /\ ObjectFS.te o = object.Entries tree
    | object.IsBlob v =>
        exists rd, object.Reader v = inr rd /\
                   ObjectFS.r o = Some rd /\ ObjectFS.te o = []
    | object.IsTag => False
    end.
Proof.
  unfold ObjectFS.NewFile. intros H.
  bind_inv H. bind_inv H. bind_inv H. destruct a1 as [[[size isDir] r] te].
  bind_inv H. bind_inv H.
  cbn in Ha, Ha0, Ha2, Ha3, H. injection H as <-.
  rewrite logOptions_historyQuery in Ha2.
  exists a, a0, a2.
  destruct a0 as [v | v | v |]; cbn in Ha1.
  - destruct (object.Commit_Tree (git.Storer repo) v) as [err | tree] eqn:Htree;
      cbn in Ha1; [discriminate |].
    injection Ha1 as <- <- <- <-.
    repeat split; auto; try discriminate.
    + eapply firstCommit_intro; eauto.
    + exists tree. auto.
  - injection Ha1 as <- <- <- <-.
    repeat split; auto; try discriminate.
    eapply firstCommit_intro; eauto.
  - destruct (object.Reader v) as [err | rd] eqn:Hrd; cbn in Ha1; [discriminate |].
    injection Ha1 as <- <- <- <-.
    repeat split; auto; try discriminate.
    + eapply firstCommit_intro; eauto.
    + exists rd. auto.
  - discriminate.
Qed.

(** [Open] resolves the name to a mode and a hash, then builds the heavy
    object for the cleaned name. *)
Lemma Open_inv tree name o :
  outcome (ObjectFS.Open tree name) = inr o ->
  exists mode hash,
    outcome (ObjectFS.NewFile (ObjectFS.t_hash tree) hash (ObjectFS.t_repo tree)
                              (path.Clean name) mode) = inr o /\
    (if path.Clean name =? "."
     then mode = filemode.Dir /\ hash = ObjectFS.t_hash tree
     else exists f,
         object.Tree_FindEntry (git.Storer (ObjectFS.t_repo tree))
                               (ObjectFS.t_tree tree) name = inr f /\
         mode = object.Mode f /\ hash = object.entryHash f).
Proof.
  unfold ObjectFS.Open. intros H. bind_inv H. destruct a as [mode hash].
  exists mode, hash. split; [exact H |].
  destruct (path.Clean name =? ".").
  - cbn in Ha. now injection Ha as <- <-.
  - cbn in Ha.
    destruct (object.Tree_FindEntry _ _ name) as [err | f].
    + destruct (errors.Is err ErrEntryNotFound || errors.Is err ErrFileNotFound);
        discriminate.
    + cbn in Ha. injection Ha as <- <-. exists f. auto.
Qed.

(** The light constructor makes no call that opens a blob. *)
Lemma NewFileInfo_calls commit hash repo fullName mode :
  forall ev, In ev (calls (ObjectFS.NewFileInfo commit hash repo fullName mode)) ->
             ev = CallGetObject hash \/ ev = CallNext \/ ev = CallIterClose \/
             exists opts, ev = CallLog opts.
Proof.
  intros ev. unfold ObjectFS.NewFileInfo, calls. cbn.
  destruct (filemode.ToOSFileMode mode) as [err | osMode]; cbn; [tauto |].
  destruct (object.GetObject (git.Storer repo) hash) as [err | obj]; cbn;
    [intuition auto |].
  destruct obj; cbn; try (intuition auto; fail);
    match goal with
    | |- context [git.Log ?r ?q] =>
        destruct (git.Log r q) as [err | it]; cbn;
        [| destruct (git.Next it); cbn]
    end;
    intuition eauto.
Qed.

(* ------------------------------------------------------------------ *)
(** ** Opening a path *)

Lemma NewFS_inv repo rev tree :
  outcome (ObjectFS.NewFS repo rev) = inr tree ->
  ObjectFS.t_repo tree = repo /\
  git.ResolveRevision repo rev = inr (ObjectFS.t_hash tree) /\
  exists c, git.Storer repo (ObjectFS.t_hash tree) = inr (object.IsCommit c) /\
            object.Commit_Tree (git.Storer repo) c = inr (ObjectFS.t_tree tree).
Proof.
  unfold ObjectFS.NewFS. intros H.
  bind_inv H. bind_inv H. bind_inv H.
  cbn in Ha, Ha0, Ha1, H. injection H as <-. cbn.
  repeat split; auto.
  exists a0. split; auto.
  unfold git.CommitObject, object.GetCommit in Ha0.
  destruct (git.Storer repo a) as [err | [c | t | b |]]; try discriminate.
  now injection Ha0 as ->.
Qed.

(** [Open] answers [fs.ErrNotExist] for the two errors of the tree walk it
    tests for, and hands every other error of the walk on unchanged. *)
Lemma Open_FindEntry_error tree name err :
  (path.Clean name =? ".") = false ->
  object.Tree_FindEntry (git.Storer (ObjectFS.t_repo tree))
                        (ObjectFS.t_tree tree) name = inl err ->
  outcome (ObjectFS.Open tree name) =
  inl (if errors.Is err ErrEntryNotFound || errors.Is err ErrFileNotFound
       then ErrNotExist else err).
Proof.
  intros Hclean Hfind. unfold ObjectFS.Open.
  apply outcome_bind_err. rewrite Hclean. cbn. rewrite Hfind.
  now destruct (errors.Is err ErrEntryNotFound || errors.Is err ErrFileNotFound).
Qed.

(** The walk of [FindEntry] reports a missing last element as
    [ErrEntryNotFound] and a missing directory on the way as
    [ErrDirectoryNotFound]. *)
Lemma findEntryFrom_last s t last :
  object.Tree_entry t last = inl ErrEntryNotFound ->
  object.findEntryFrom s t [last] = inl ErrEntryNotFound.
Proof. auto. Qed.

Lemma findEntryFrom_missing_directory s t part next rest err :
  object.Tree_entry t part = inl err ->
  object.findEntryFrom s t (part :: next :: rest) = inl ErrDirectoryNotFound.
Proof.
  intros H. cbn. unfold object.Tree_dir. now rewrite H.
Qed.

(** C4: for every path opened under a snapshot, [Stat] reports a directory
    exactly when the graph object the path resolved to is a tree or a
    commit, and then reports size zero; the light entries of a directory
    listing obey the same rule. *)
Theorem C4_isDir_iff_directory_like :
  (forall tree name o,
      outcome (ObjectFS.Open tree name) = inr o ->
      exists obj,
        object.GetObject (git.Storer (ObjectFS.t_repo tree)) (ObjectFS.hash o)
        = inr obj /\
        (ObjectFS.IsDir (fst (ObjectFS.Stat o)) = true <-> directoryLike obj = true) /\
        (ObjectFS.IsDir (fst (ObjectFS.Stat o)) = true ->
         ObjectFS.Size (fst (ObjectFS.Stat o)) = 0%Z)) /\
  (forall commit hash repo fullName mode o,
      outcome (ObjectFS.NewFileInfo commit hash repo fullName mode) = inr o ->
      exists obj,
        object.GetObject (git.Storer repo) hash = inr obj /\
        (ObjectFS.IsDir o = true <-> directoryLike obj = true) /\
        (ObjectFS.IsDir o = true -> ObjectFS.Size o = 0%Z)).
Proof.
  split.
  - intros tree name o H.
    apply Open_inv in H. destruct H as (mode & hash & H & _).
    apply NewFile_inv in H.
    destruct H as (osMode & obj & c & _ & Hobj & _ & _ & Hstat & _).
    destruct Hstat as (_ & Hhash & _ & _ & _ & Hsize & HisDir & _).
    exists obj. cbn. unfold ObjectFS.IsDir, ObjectFS.Size.
    rewrite Hhash, HisDir, Hsize. repeat split; auto.
    destruct obj; cbn; auto; discriminate.
  - intros commit hash repo fullName mode o H.
    apply NewFileInfo_inv in H.
    destruct H as (osMode & obj & c & _ & Hobj & _ & _ & Hstat & _).
    destruct Hstat as (_ & Hhash & _ & _ & _ & Hsize & HisDir & _).
    exists obj. unfold ObjectFS.IsDir, ObjectFS.Size.
    rewrite HisDir, Hsize. repeat split; auto.
    destruct obj; cbn; auto; discriminate.
Qed.

Lemma C4_isDir_iff_directory_like_witness :
  exists obj,
    object.GetObject Demo.store (ObjectFS.hash Demo.docsDir) = inr obj /\
    (ObjectFS.IsDir (fst (ObjectFS.Stat Demo.docsDir)) = true
     <-> directoryLike obj = true) /\
    (ObjectFS.IsDir (fst (ObjectFS.Stat Demo.docsDir)) = true ->
     ObjectFS.Size (fst (ObjectFS.Stat Demo.docsDir)) = 0%Z).
Proof.
  apply (proj1 C4_isDir_iff_directory_like Demo.snapshot "docs" Demo.docsDir).
  reflexivity.
Defined.

(** C1, as the adapters have it: an object the [Object]-based adapter
    opens or lists carries the author date of the first commit of the
    history traversal that starts at the snapshot's commit and is filtered
    by the exact path for a file, by the path as a prefix for a directory,
    and not at all for the root directory; a file the adapter of [fs.go]
    opens carries the committer date of the first commit of the traversal
    filtered by the name it was opened under. *)
Theorem C1_modTime_first_commit_of_history :
  (forall tree name o,
      outcome (ObjectFS.Open tree name) = inr o ->
      exists c,
        firstCommit (ObjectFS.t_repo tree)
                    (historyQuery (ObjectFS.t_hash tree) (ObjectFS.IsDir o)
                                  (path.Clean name)) = inr c /\
        ObjectFS.ModTime o = object.When (object.Author c)) /\
  (forall commit hash repo fullName mode o,
      outcome (ObjectFS.NewFileInfo commit hash repo fullName mode) = inr o ->
      exists c,
        firstCommit repo (historyQuery commit (ObjectFS.IsDir o) fullName)
        = inr c /\
        ObjectFS.ModTime o = object.When (object.Author c)) /\
  (forall tree name f,
      outcome (FileFS.Open tree name) = inr f ->
      exists c,
        firstCommit (FileFS.repo tree) (fileHistory (FileFS.hash tree) name)
        = inr c /\
        FileFS.modTime (fst (FileFS.Stat f)) = object.When (object.Committer c)).
Proof.
  split; [| split].
  - intros tree name o H.
    apply Open_inv in H. destruct H as (mode & hash & H & _).
    apply NewFile_inv in H.
    destruct H as (osMode & obj & c & _ & _ & _ & Hc & Hstat & _).
    destruct Hstat as (_ & _ & _ & _ & _ & _ & HisDir & Htime).
    exists c. unfold ObjectFS.IsDir, ObjectFS.ModTime.
    now rewrite HisDir, Htime.
  - intros commit hash repo fullName mode o H.
    apply NewFileInfo_inv in H.
    destruct H as (osMode & obj & c & _ & _ & _ & Hc & Hstat & _).
    destruct Hstat as (_ & _ & _ & _ & _ & _ & HisDir & Htime).
    exists c. unfold ObjectFS.IsDir, ObjectFS.ModTime.
    now rewrite HisDir, Htime.
  - intros tree name f H. unfold FileFS.Open in H.
    bind_inv H. bind_inv H. bind_inv H. cbv zeta in H. bind_inv H.
    bind_inv H.
    apply outcome_ret_inv in H. subst f.
    exists a3. split; [| reflexivity].
    eapply firstCommit_intro; eauto.
Qed.

Lemma C1_modTime_first_commit_of_history_witness :
  exists c,
    firstCommit Demo.repo (fileHistory 1%Z "docs/readme.md") = inr c /\
    ObjectFS.ModTime Demo.readmeFile = object.When (object.Author c).
Proof.
  apply (proj1 C1_modTime_first_commit_of_history
               Demo.snapshot "docs/readme.md" Demo.readmeFile).
  reflexivity.
Defined.

(** C1 as stated fails on the adapter of [fs.go]: the file it opens
    carries the committer date of the first commit of the traversal, not
    its author date. *)
Lemma C1_counterexample :
  outcome (FileFS.Open Demo.fileSnapshot "a.go") = inr Demo.aFile /\
  firstCommit Demo.repo (fileHistory 1%Z "a.go") = inr Demo.c1 /\
  FileFS.modTime (fst (FileFS.Stat Demo.aFile)) = 150%Z /\
  object.When (object.Author Demo.c1) = 100%Z /\
  FileFS.modTime (fst (FileFS.Stat Demo.aFile))
  <> object.When (object.Author Demo.c1).
Proof. repeat (split; [reflexivity |]). discriminate. Qed.

(** C5: on every input on which both constructors succeed, the light and
    the heavy object show the same name, size, mode, modification time and
    directory flag; the light constructor never opens a blob, whatever its
    input, and leaves the content stream and the child list unset. *)
Theorem C5_light_and_heavy_agree commit hash repo fullName mode :
  (forall blob,
      ~ In (CallBlobReader blob)
           (calls (ObjectFS.NewFileInfo commit hash repo fullName mode))) /\
  (forall light heavy,
      outcome (ObjectFS.NewFileInfo commit hash repo fullName mode) = inr light ->
      outcome (ObjectFS.NewFile commit hash repo fullName mode) = inr heavy ->
      ObjectFS.Name light = ObjectFS.Name heavy /\
      ObjectFS.Size light = ObjectFS.Size heavy /\
      ObjectFS.Mode light = ObjectFS.Mode heavy /\
      ObjectFS.ModTime light = ObjectFS.ModTime heavy /\
      ObjectFS.IsDir light = ObjectFS.IsDir heavy /\
      ObjectFS.r light = None /\ ObjectFS.te light = []).
Proof.
  split.
  - intros blob Hin. apply NewFileInfo_calls in Hin.
    destruct Hin as [H | [H | [H | [opts H]]]]; discriminate.
  - intros light heavy Hl Hh.
    apply NewFileInfo_inv in Hl.
    destruct Hl as (osMode & obj & c & Hmode & Hobj & _ & Hc & Hstat & Hr & Hte).
    apply NewFile_inv in Hh.
    destruct Hh as (osMode' & obj' & c' & Hmode' & Hobj' & _ & Hc' & Hstat' & _).
    assert (osMode' = osMode) by congruence.
    assert (obj' = obj) by congruence. subst osMode' obj'.
    assert (c' = c) by congruence. subst c'.
    destruct Hstat as (_ & _ & _ & Hname & Hm & Hsize & HisDir & Htime).
    destruct Hstat' as (_ & _ & _ & Hname' & Hm' & Hsize' & HisDir' & Htime').
    unfold ObjectFS.Name, ObjectFS.Size, ObjectFS.Mode, ObjectFS.ModTime,
      ObjectFS.IsDir.
    repeat split; congruence.
Qed.

Lemma C5_light_and_heavy_agree_witness :
  ObjectFS.Name Demo.readmeInfo
  = ObjectFS.Name Demo.readmeFile /\
  ObjectFS.Size Demo.readmeInfo
  = ObjectFS.Size Demo.readmeFile /\
  ObjectFS.Mode Demo.readmeInfo
  = ObjectFS.Mode Demo.readmeFile /\
  ObjectFS.ModTime Demo.readmeInfo
  = ObjectFS.ModTime Demo.readmeFile /\
  ObjectFS.IsDir Demo.readmeInfo
  = ObjectFS.IsDir Demo.readmeFile /\
  ObjectFS.r Demo.readmeInfo = None /\
  ObjectFS.te Demo.readmeInfo = [].
Proof.
  apply (proj2 (C5_light_and_heavy_agree 1%Z 14%Z Demo.repo "docs/readme.md"
                                         filemode.Regular));
    reflexivity.
Defined.

(** A name whose only element is missing from the root tree is answered
    with [fs.ErrNotExist]. *)
Lemma Open_missing_entry tree name last :
  (path.Clean name =? ".") = false ->
  strings.SplitSlash name = [last] ->
  object.Tree_entry (ObjectFS.t_tree tree) last = inl ErrEntryNotFound ->
  outcome (ObjectFS.Open tree name) = inl ErrNotExist.
Proof.
  intros Hclean Hsplit Hentry.
  rewrite (@Open_FindEntry_error tree name ErrEntryNotFound Hclean); [reflexivity |].
  unfold object.Tree_FindEntry. rewrite Hsplit. now apply findEntryFrom_last.
Qed.

(** A name whose first element is missing from the root tree, and is
    followed by more elements, is answered with the error of the tree walk,
    [object.ErrDirectoryNotFound]: [Open] does not test for it. *)
Lemma Open_missing_directory tree name part next rest err :
  (path.Clean name =? ".") = false ->
  strings.SplitSlash name = part :: next :: rest ->
  object.Tree_entry (ObjectFS.t_tree tree) part = inl err ->
  outcome (ObjectFS.Open tree name) = inl ErrDirectoryNotFound.
Proof.
  intros Hclean Hsplit Hentry.
  rewrite (@Open_FindEntry_error tree name ErrDirectoryNotFound Hclean);
    [reflexivity |].
  unfold object.Tree_FindEntry. rewrite Hsplit.
  eapply findEntryFrom_missing_directory; eauto.
Qed.

(** C3, at the path [missing/path] of the snapshot of [main]: the root
    tree has no entry [missing], and [Open] answers with
    [object.ErrDirectoryNotFound], which is not [fs.ErrNotExist]; the
    one-element path [missing] is answered with [fs.ErrNotExist]. *)
Theorem C3_Open_missing_directory :
  outcome (ObjectFS.NewFS Demo.repo "main") = inr Demo.snapshot /\
  object.Tree_entry (ObjectFS.t_tree Demo.snapshot) "missing"
  = inl ErrEntryNotFound /\
  outcome (ObjectFS.Open Demo.snapshot "missing/path")
  = inl ErrDirectoryNotFound /\
  errors.Is ErrDirectoryNotFound ErrNotExist = false /\
  outcome (ObjectFS.Open Demo.snapshot "missing") = inl ErrNotExist.
Proof. repeat (split; [reflexivity |]). reflexivity. Qed.

(** Opening a name that cleans to [.] builds the heavy object for the
    snapshot's commit under the name [.] and the mode of a directory. *)
Lemma Open_root tree name :
  path.Clean name = "." ->
  outcome (ObjectFS.Open tree name) =
  outcome (ObjectFS.NewFile (ObjectFS.t_hash tree) (ObjectFS.t_hash tree)
                            (ObjectFS.t_repo tree) "." filemode.Dir).
Proof.
  intros Hclean. unfold ObjectFS.Open. rewrite Hclean. cbn [String.eqb].
  change ("." =? ".") with true. cbv iota.
  now rewrite (@outcome_bind_ok _ _ _ _ (filemode.Dir, ObjectFS.t_hash tree)).
Qed.

Lemma NewFile_not_NotExist_on_commit repo commit h fullName c :
  foreignErrors repo ->
  git.Storer repo h = inr (object.IsCommit c) ->
  outcome (ObjectFS.NewFile commit h repo fullName filemode.Dir)
  <> inl ErrNotExist.
Proof.
  intros (Hstore & Hlog & Hnext) Hc.
  unfold ObjectFS.NewFile, outcome. cbn.
  unfold object.GetObject. rewrite Hc. cbn.
  unfold object.Commit_Tree, object.GetTree.
  destruct (git.Storer repo (object.TreeHash c)) as [err | [c' | t | b |]] eqn:Ht;
    cbn; try discriminate.
  - intros [= ->]. now apply (Hstore (object.TreeHash c)).
  - match goal with
    | |- context [git.Log ?r ?q] =>
        destruct (git.Log r q) as [err | it] eqn:Hit; cbn
    end.
    + intros [= ->]. eapply Hlog; eauto.
    + destruct (git.Next it) as [err | c''] eqn:Hn; cbn; [| discriminate].
      intros [= ->]. eapply Hnext; eauto.
Qed.

(** C8, as the adapter has it: for a snapshot built by [NewFS], opening a
    name that cleans to [.] never answers [fs.ErrNotExist] (no collaborator
    answering it of its own), and what it opens is a directory of size
    zero named [.], with the mode of a directory, whose hash is the commit
    the revision resolved to, and whose children are the entries of that
    commit's tree, the root tree of the snapshot. *)
Theorem C8_open_root repo rev tree name :
  outcome (ObjectFS.NewFS repo rev) = inr tree ->
  path.Clean name = "." ->
  (foreignErrors repo ->
   outcome (ObjectFS.Open tree name) <> inl ErrNotExist) /\
  (forall o,
      outcome (ObjectFS.Open tree name) = inr o ->
      ObjectFS.IsDir o = true /\
      ObjectFS.Mode o = Z.lor fs.ModePerm fs.ModeDir /\
      ObjectFS.Size o = 0%Z /\
      ObjectFS.fullName o = "." /\
      ObjectFS.hash o = ObjectFS.t_hash tree /\
      git.ResolveRevision repo rev = inr (ObjectFS.hash o) /\
      ObjectFS.te o = object.Entries (ObjectFS.t_tree tree)).
Proof.
  intros Hfs Hclean.
  apply NewFS_inv in Hfs. destruct Hfs as (Hrepo & Hrev & c & Hc & Htree).
  rewrite (Open_root tree name Hclean). rewrite Hrepo. split.
  - intros Hforeign. eapply NewFile_not_NotExist_on_commit; eauto.
  - intros o Ho. apply NewFile_inv in Ho.
    destruct Ho as (osMode & obj & c' & Hmode & Hobj & _ & _ & Hstat & Hkids).
    assert (obj = object.IsCommit c) by congruence. subst obj.
    destruct Hkids as (tree' & Htree' & _ & Hte).
    assert (tree' = ObjectFS.t_tree tree) by congruence. subst tree'.
    destruct Hstat as (_ & Hhash & _ & Hname & Hm & Hsize & HisDir & _).
    unfold ObjectFS.IsDir, ObjectFS.Mode, ObjectFS.Size.
    rewrite Hhash, Hname, Hm, Hsize, HisDir, Hte.
    cbn in Hmode. injection Hmode as <-.
    repeat split; auto.
Qed.

Lemma Demo_foreignErrors : foreignErrors Demo.repo.
Proof.
  repeat split.
  - intros h. cbn. unfold Demo.store.
    repeat match goal with
           | |- context [if ?b then _ else _] => destruct b
           end; discriminate.
  - intros opts. cbn. unfold Demo.log.
    destruct (git.From opts =? 1)%Z; discriminate.
  - intros opts it. cbn. unfold Demo.log.
    destruct (git.From opts =? 1)%Z; [| discriminate].
    intros [= <-].
    match goal with
    | |- context [map ?f ?l] => destruct l; cbn; discriminate
    end.
Qed.

Lemma C8_open_root_witness :
  outcome (ObjectFS.Open Demo.snapshot "./") <> inl ErrNotExist /\
  ObjectFS.IsDir Demo.rootDir = true /\
  ObjectFS.Mode Demo.rootDir = Z.lor fs.ModePerm fs.ModeDir /\
  ObjectFS.Size Demo.rootDir = 0%Z /\
  ObjectFS.fullName Demo.rootDir = "." /\
  ObjectFS.hash Demo.rootDir = ObjectFS.t_hash Demo.snapshot /\
  git.ResolveRevision Demo.repo "main" = inr (ObjectFS.hash Demo.rootDir) /\
  ObjectFS.te Demo.rootDir = object.Entries (ObjectFS.t_tree Demo.snapshot).
Proof.
  destruct (@C8_open_root Demo.repo "main" Demo.snapshot "./" eq_refl eq_refl)
    as [Hne Hroot].
  split; [exact (Hne Demo_foreignErrors) | exact (Hroot Demo.rootDir eq_refl)].
Defined.

(** C8 as stated fails on the hash: the object opened for the root carries
    the hash of the commit, which is not the hash of the commit's tree. *)
Lemma C8_counterexample :
  outcome (ObjectFS.NewFS Demo.repo "main") = inr Demo.snapshot /\
  outcome (ObjectFS.Open Demo.snapshot ".") = inr Demo.rootDir /\
  git.CommitObject Demo.repo (ObjectFS.t_hash Demo.snapshot) = inr Demo.c3 /\
  ObjectFS.hash Demo.rootDir = 1%Z /\
  object.TreeHash Demo.c3 = 10%Z /\
  object.treeHash (ObjectFS.t_tree Demo.snapshot) = 10%Z /\
  ObjectFS.hash Demo.rootDir <> object.TreeHash Demo.c3.
Proof. repeat (split; [reflexivity |]). discriminate. Qed.

(* ------------------------------------------------------------------ *)
(** ** Enumerating a directory *)

Lemma sliced_le (len : nat) (n : Z) : sliced len n <= len.
Proof.
  unfold sliced.
  destruct (n <? 0)%Z eqn:Hneg; cbn; [lia |].
  destruct (Z.of_nat len <? n)%Z eqn:Hbig; [lia |].
  apply Z.ltb_ge in Hbig. lia.
Qed.

Lemma sliced_zero (len : nat) : sliced len 0 = 0.
Proof.
  unfold sliced. cbn.
  destruct (Z.of_nat len <? 0)%Z eqn:Hbig; [| reflexivity].
  apply Z.ltb_lt in Hbig. lia.
Qed.


Lemma sliced_all (len : nat) (n : Z) : (n < 0)%Z -> sliced len n = len.
Proof.
  unfold sliced. intros Hn. apply Z.ltb_lt in Hn. now rewrite Hn.
Qed.

Lemma childInfo_set_te o cursor v :
  childInfo (ObjectFS.set_te o cursor) v = childInfo o v.
Proof. reflexivity. Qed.

Lemma readDirLoop_childInfo o v rest :
  ObjectFS.readDirLoop o (v :: rest) =
  (d <- childInfo o v ;; ds <- ObjectFS.readDirLoop o rest ;; ret (d :: ds)).
Proof. reflexivity. Qed.

Lemma readDirLoop_set_te o cursor vs :
  ObjectFS.readDirLoop (ObjectFS.set_te o cursor) vs = ObjectFS.readDirLoop o vs.
Proof.
  induction vs as [| v rest IH]; [reflexivity |].
  rewrite !readDirLoop_childInfo, childInfo_set_te.
  unfold bind, Monad_M.
  destruct (childInfo o v) as [t [err | d]]; [reflexivity |].
  now rewrite IH.
Qed.

(** The loop succeeds exactly when every child can be listed, and then
    answers with their entries in order. *)
Lemma readDirLoop_listed o vs ds :
  outcome (ObjectFS.readDirLoop o vs) = inr ds <-> listed o vs ds.
Proof.
  revert ds. induction vs as [| v rest IH]; intros ds.
  - cbn. split.
    + intros [= <-]. constructor.
    + intros H. inversion H. reflexivity.
  - rewrite readDirLoop_childInfo. split.
    + intros H. bind_inv H. bind_inv H. apply outcome_ret_inv in H. subst ds.
      constructor; [assumption |]. now apply IH.
    + intros H. inversion H as [| v' d rest' ds' Hd Hrest]; subst.
      rewrite (outcome_bind_ok _ _ Hd).
      apply IH in Hrest. now rewrite (outcome_bind_ok _ _ Hrest).
Qed.

(** The loop fails with the error of the first child that cannot be
    listed. *)
Lemma readDirLoop_error o vs err :
  outcome (ObjectFS.readDirLoop o vs) = inl err <->
  exists before v after ds,
    vs = before ++ v :: after /\ listed o before ds /\
    outcome (childInfo o v) = inl err.
Proof.
  revert err. induction vs as [| v rest IH]; intros err.
  - cbn. split; [discriminate |].
    intros (before & v & after & ds & H & _). now destruct before.
  - rewrite readDirLoop_childInfo.
    destruct (outcome (childInfo o v)) as [err' | d] eqn:Hv.
    + rewrite (outcome_bind_err _ _ Hv). split.
      * intros [= <-]. exists [], v, rest, []. repeat split; auto. constructor.
      * intros (before & v' & after & ds & Heq & Hbefore & Hv').
        destruct before as [| b before]; cbn in Heq; injection Heq as Hhd Htl;
          subst.
        -- congruence.
        -- inversion Hbefore; subst. congruence.
    + rewrite (outcome_bind_ok _ _ Hv).
      destruct (outcome (ObjectFS.readDirLoop o rest)) as [err' | ds] eqn:Hrest.
      * rewrite (outcome_bind_err _ _ Hrest). split.
        -- intros [= <-].
           destruct (proj1 (IH err') eq_refl)
             as (before & v' & after & ds & -> & Hbefore & Hv').
           exists (v :: before), v', after, (d :: ds).
           repeat split; auto. now constructor.
        -- intros (before & v' & after & ds & Heq & Hbefore & Hv').
           destruct before as [| b before]; cbn in Heq; injection Heq as Hhd Htl;
             subst.
           ++ congruence.
           ++ inversion Hbefore; subst.
              apply (proj2 (IH err)). eauto 8.
      * rewrite (outcome_bind_ok _ _ Hrest), outcome_ret. split; [discriminate |].
        intros (before & v' & after & ds' & Heq & Hbefore & Hv').
        destruct before as [| b before]; cbn in Heq; injection Heq as Hhd Htl;
          subst.
        -- congruence.
        -- inversion Hbefore; subst.
           assert (H : inr ds = inl err :> error + list ObjectFS.Object)
             by (apply (proj2 (IH err)); eauto 8).
           discriminate.
Qed.

(** The three ways a call of [ReadDir] goes. *)
Lemma ReadDir_not_dir o n :
  ObjectFS.isDir o = false ->
  ObjectFS.ReadDir o n = ([], (([], Some ErrPermission), o)).
Proof. intros H. unfold ObjectFS.ReadDir. now rewrite H. Qed.

Lemma ReadDir_empty o n :
  ObjectFS.isDir o = true -> ObjectFS.te o = [] ->
  ObjectFS.ReadDir o n = ([], (endOfSequence, o)).
Proof. intros Hdir Hte. unfold ObjectFS.ReadDir. now rewrite Hdir, Hte. Qed.

Lemma ReadDir_slice o n :
  ObjectFS.isDir o = true -> ObjectFS.te o <> [] ->
  snd (ObjectFS.ReadDir o n) =
  (match outcome (ObjectFS.readDirLoop
                    o (firstn (sliced (length (ObjectFS.te o)) n) (ObjectFS.te o))) with
   | inl err => ([], Some err)
   | inr ds => (ds, None)
   end,
   ObjectFS.set_te o (skipn (sliced (length (ObjectFS.te o)) n) (ObjectFS.te o))).
Proof.
  intros Hdir Hte. unfold ObjectFS.ReadDir. rewrite Hdir. cbn [negb].
  destruct (ObjectFS.te o) as [| v rest] eqn:Hcursor; [contradiction |].
  cbn [length Nat.eqb]. rewrite readDirLoop_set_te.
  assert (Hk : Z.to_nat (if ((n <? 0) || (Z.of_nat (S (length rest)) <? n))%Z
                         then Z.of_nat (S (length rest)) else n)
               = sliced (S (length rest)) n).
  { unfold sliced.
    destruct ((n <? 0) || (Z.of_nat (S (length rest)) <? n))%Z;
      [apply Nat2Z.id | reflexivity]. }
  rewrite Hk. unfold outcome.
  now destruct (ObjectFS.readDirLoop o _) as [t [err | ds]].
Qed.

Lemma set_te_same o : ObjectFS.set_te o (ObjectFS.te o) = o.
Proof. now destruct o. Qed.

(** C9: [Read] on a directory answers no byte and [fs.ErrPermission], and
    [ReadDir] on an object that is not a directory answers no entry and
    [fs.ErrPermission]; neither changes the object nor calls into the
    repository. *)
Theorem C9_wrong_kind_is_permission_denied o :
  (ObjectFS.isDir o = true ->
   forall len_b,
     ObjectFS.Read o len_b = ObjectFS.Returns (([], Some ErrPermission), o)) /\
  (ObjectFS.isDir o = false ->
   forall n,
     ObjectFS.ReadDir o n = ([], (([], Some ErrPermission), o))).
Proof.
  split.
  - intros Hdir len_b. unfold ObjectFS.Read. now rewrite Hdir.
  - intros Hfile n. now apply ReadDir_not_dir.
Qed.

Lemma C9_wrong_kind_is_permission_denied_witness :
  ObjectFS.Read Demo.docsDir 16
  = ObjectFS.Returns (([], Some ErrPermission), Demo.docsDir) /\
  ObjectFS.ReadDir Demo.readmeFile 1
  = ([], (([], Some ErrPermission), Demo.readmeFile)).
Proof.
  split.
  - apply (proj1 (C9_wrong_kind_is_permission_denied Demo.docsDir)). reflexivity.
  - apply (proj2 (C9_wrong_kind_is_permission_denied Demo.readmeFile)).
    reflexivity.
Defined.

(** C6, as the adapter has it: on a directory, [ReadDir] signals the end
    of the sequence whenever the cursor is empty, whatever the count, zero
    included; with entries left, a call with count zero answers no entry
    and no error and leaves the cursor as it is, and a call answers
    [io.EOF] only when building the entry of one of the children it sliced
    off failed with it. *)
Theorem C6_end_of_sequence o n :
  ObjectFS.isDir o = true ->
  (ObjectFS.te o = [] -> snd (ObjectFS.ReadDir o n) = (endOfSequence, o)) /\
  (ObjectFS.te o <> [] -> n = 0%Z ->
   snd (ObjectFS.ReadDir o n) = (([], None), o)) /\
  (ObjectFS.te o <> [] ->
   snd (fst (snd (ObjectFS.ReadDir o n))) = Some EOF ->
   exists v,
     In v (firstn (sliced (length (ObjectFS.te o)) n) (ObjectFS.te o)) /\
     outcome (childInfo o v) = inl EOF).
Proof.
  intros Hdir. split; [| split].
  - intros Hte. now rewrite ReadDir_empty.
  - intros Hte ->. rewrite ReadDir_slice by assumption.
    rewrite sliced_zero. cbn [firstn skipn].
    now rewrite set_te_same.
  - intros Hte. rewrite ReadDir_slice by assumption. cbn [fst snd].
    destruct (outcome (ObjectFS.readDirLoop o _)) as [err | ds] eqn:Hloop;
      cbn [snd]; [| discriminate].
    intros [= ->]. apply readDirLoop_error in Hloop.
    destruct Hloop as (before & v & after & ds & Heq & _ & Hv).
    exists v. split; [| assumption].
    rewrite Heq. apply in_or_app. right. now left.
Qed.

Lemma C6_end_of_sequence_witness :
  snd (ObjectFS.ReadDir Demo.rootDrained (-1)) = (endOfSequence, Demo.rootDrained) /\
  snd (ObjectFS.ReadDir Demo.rootDir 0) = (([], None), Demo.rootDir).
Proof.
  split.
  - apply (proj1 (@C6_end_of_sequence Demo.rootDrained (-1) eq_refl)).
    reflexivity.
  - apply (proj1 (proj2 (@C6_end_of_sequence Demo.rootDir 0 eq_refl)));
      [discriminate | reflexivity].
Defined.

(** C6 as stated fails at count zero: on an empty cursor a call with
    count zero signals the end of the sequence too. *)
Lemma C6_counterexample :
  ObjectFS.isDir Demo.rootDrained = true /\
  ObjectFS.te Demo.rootDrained = [] /\
  snd (ObjectFS.ReadDir Demo.rootDir (-1))
  = ((Demo.rootListing, None), Demo.rootDrained) /\
  snd (ObjectFS.ReadDir Demo.rootDrained 0) = (([], Some EOF), Demo.rootDrained).
Proof. repeat (split; [reflexivity |]). reflexivity. Qed.


Lemma skipn_plus {A : Type} (k j : nat) (l : list A) :
  skipn (k + j) l = skipn j (skipn k l).
Proof.
  revert l. induction k as [| k IH]; intros l; [reflexivity |].
  destruct l as [| x l]; cbn.
  - now rewrite skipn_nil.
  - apply IH.
Qed.

Lemma subseq_nil_l {A : Type} (l : list A) : subseq [] l.
Proof. induction l; constructor; assumption. Qed.

Lemma subseq_refl {A : Type} (l : list A) : subseq l l.
Proof. induction l; constructor; assumption. Qed.

Lemma subseq_app {A : Type} (sub1 l1 sub2 l2 : list A) :
  subseq sub1 l1 -> subseq sub2 l2 -> subseq (sub1 ++ sub2) (l1 ++ l2).
Proof.
  intros H1 H2. induction H1; cbn; try constructor; assumption.
Qed.

Lemma subseq_after {A : Type} (k : nat) (sub l : list A) :
  subseq sub (skipn k l) -> subseq sub l.
Proof.
  intros H. rewrite <- (firstn_skipn k l).
  apply (subseq_app (subseq_nil_l _) H).
Qed.

Lemma subseq_slice_then {A : Type} (k : nat) (sub l : list A) :
  subseq sub (skipn k l) -> subseq (firstn k l ++ sub) l.
Proof.
  intros H. rewrite <- (firstn_skipn k l) at 2.
  apply (subseq_app (subseq_refl _) H).
Qed.

Lemma listed_set_te o cursor vs ds :
  listed (ObjectFS.set_te o cursor) vs ds <-> listed o vs ds.
Proof. reflexivity. Qed.

Lemma listed_app o vs1 ds1 vs2 ds2 :
  listed o vs1 ds1 -> listed o vs2 ds2 -> listed o (vs1 ++ vs2) (ds1 ++ ds2).
Proof. apply Forall2_app. Qed.

Lemma listed_length o vs ds : listed o vs ds -> length vs = length ds.
Proof. induction 1; cbn; congruence. Qed.



Lemma listed_In o vs ds v :
  listed o vs ds -> In v vs -> exists d, outcome (childInfo o v) = inr d.
Proof.
  induction 1 as [| v' d vs' ds' Hd _ IH]; cbn; [contradiction |].
  intros [<- | Hin]; eauto.
Qed.

(** A sequence of calls, one call at a time. *)
Lemma readDirs_cons o n ns :
  readDirs o (n :: ns) =
  (fst (snd (ObjectFS.ReadDir o n))
     :: fst (readDirs (snd (snd (ObjectFS.ReadDir o n))) ns),
   snd (readDirs (snd (snd (ObjectFS.ReadDir o n))) ns)).
Proof.
  cbn [readDirs]. destruct (ObjectFS.ReadDir o n) as [t [res o']]. cbn [fst snd].
  now destruct (readDirs o' ns).
Qed.

Lemma entriesOf_cons res ress :
  entriesOf (res :: ress) = fst res ++ entriesOf ress.
Proof. reflexivity. Qed.

(** C7: when one of the children a call of [ReadDir] slices off the cursor
    cannot be given its entry, the call answers no entry at all, and the
    error of the first such child. *)
Theorem C7_failed_child_fails_the_call o n v err :
  ObjectFS.isDir o = true ->
  In v (firstn (sliced (length (ObjectFS.te o)) n) (ObjectFS.te o)) ->
  outcome (childInfo o v) = inl err ->
  exists err' v',
    fst (snd (ObjectFS.ReadDir o n)) = ([], Some err') /\
    In v' (firstn (sliced (length (ObjectFS.te o)) n) (ObjectFS.te o)) /\
    outcome (childInfo o v') = inl err'.
Proof.
  intros Hdir Hin Hv.
  assert (Hte : ObjectFS.te o <> []).
  { intros Hnil. rewrite Hnil, firstn_nil in Hin. contradiction. }
  rewrite ReadDir_slice by assumption. cbn [fst].
  destruct (outcome (ObjectFS.readDirLoop o _)) as [err' | ds] eqn:Hloop.
  - apply readDirLoop_error in Hloop.
    destruct Hloop as (before & v' & after & ds & Heq & _ & Hv').
    exists err', v'. repeat split; auto.
    rewrite Heq. apply in_or_app. right. now left.
  - apply readDirLoop_listed in Hloop.
    destruct (listed_In _ Hloop Hin) as [d Hd]. congruence.
Qed.

Lemma C7_failed_child_fails_the_call_witness :
  exists err' v',
    fst (snd (ObjectFS.ReadDir Demo.docsDir 2)) = ([], Some err') /\
    In v' (firstn (sliced (length (ObjectFS.te Demo.docsDir)) 2)
                  (ObjectFS.te Demo.docsDir)) /\
    outcome (childInfo Demo.docsDir v') = inl err'.
Proof.
  apply (@C7_failed_child_fails_the_call
           Demo.docsDir 2 (Demo.entry "vendor" filemode.Submodule 99%Z)
           ErrObjectNotFound).
  - reflexivity.
  - right. left. reflexivity.
  - reflexivity.
Defined.

(** Whatever the calls and whether they fail or not, the entries a
    sequence of calls returns are entries of children that were in the
    cursor when it started, each child at most once and in stored order,
    and the cursor it leaves is a suffix of the one it started from. *)
Lemma readDirs_subseq ns :
  forall o,
  exists kept,
    subseq kept (ObjectFS.te o) /\
    listed o kept (entriesOf (fst (readDirs o ns))).
Proof.
  induction ns as [| n ns IH]; intros o.
  - exists []. split; [apply subseq_nil_l | constructor].
  - rewrite readDirs_cons. cbn [fst]. rewrite entriesOf_cons.
    destruct (ObjectFS.isDir o) eqn:Hdir.
    + destruct (ObjectFS.te o) as [| v0 rest0] eqn:Hcursor.
      * rewrite ReadDir_empty by assumption. cbn [fst snd app].
        destruct (IH o) as (kept & Hsub & Hlisted).
        rewrite Hcursor in Hsub. eauto.
      * assert (Hte : ObjectFS.te o <> []) by (rewrite Hcursor; discriminate).
        rewrite (@ReadDir_slice o n Hdir Hte). cbn [fst snd]. rewrite Hcursor.
        set (k := sliced (length (v0 :: rest0)) n).
        destruct (IH (ObjectFS.set_te o (skipn k (v0 :: rest0))))
          as (kept & Hsub & Hlisted).
        cbn [ObjectFS.te ObjectFS.set_te] in Hsub.
        apply listed_set_te in Hlisted.
        destruct (outcome (ObjectFS.readDirLoop o (firstn k (v0 :: rest0))))
          as [err | ds] eqn:Hloop; cbn [fst].
        -- exists kept. split; [| exact Hlisted].
           now apply subseq_after with k.
        -- apply readDirLoop_listed in Hloop.
           exists (firstn k (v0 :: rest0) ++ kept). split.
           ++ now apply subseq_slice_then.
           ++ now apply listed_app.
    + rewrite ReadDir_not_dir by assumption. cbn [fst snd app]. apply IH.
Qed.

(** C10: when a call of [ReadDir] on a directory with entries left fails,
    it answers no entry, the entries it sliced off are gone from the
    cursor, and whatever calls follow on that object return only entries
    of children that came after the slice. *)
Theorem C10_failed_call_drops_its_slice o n err :
  ObjectFS.isDir o = true ->
  ObjectFS.te o <> [] ->
  snd (fst (snd (ObjectFS.ReadDir o n))) = Some err ->
  fst (fst (snd (ObjectFS.ReadDir o n))) = [] /\
  ObjectFS.te (snd (snd (ObjectFS.ReadDir o n)))
  = skipn (sliced (length (ObjectFS.te o)) n) (ObjectFS.te o) /\
  forall ns,
  exists kept,
    subseq kept (skipn (sliced (length (ObjectFS.te o)) n) (ObjectFS.te o)) /\
    listed o kept
           (entriesOf (fst (readDirs (snd (snd (ObjectFS.ReadDir o n))) ns))).
Proof.
  intros Hdir Hte. rewrite (@ReadDir_slice o n Hdir Hte). cbn [fst snd].
  intros Herr. repeat split.
  - destruct (outcome (ObjectFS.readDirLoop o _)); [reflexivity | discriminate].
  - intros ns.
    destruct (readDirs_subseq ns
                (ObjectFS.set_te
                   o (skipn (sliced (length (ObjectFS.te o)) n) (ObjectFS.te o))))
      as (kept & Hsub & Hlisted).
    exists kept. split; [exact Hsub | now apply listed_set_te in Hlisted].
Qed.

Lemma C10_failed_call_drops_its_slice_witness :
  fst (fst (snd (ObjectFS.ReadDir Demo.docsDir 2))) = [] /\
  ObjectFS.te (snd (snd (ObjectFS.ReadDir Demo.docsDir 2)))
  = skipn (sliced (length (ObjectFS.te Demo.docsDir)) 2) (ObjectFS.te Demo.docsDir) /\
  forall ns,
  exists kept,
    subseq kept (skipn (sliced (length (ObjectFS.te Demo.docsDir)) 2)
                       (ObjectFS.te Demo.docsDir)) /\
    listed Demo.docsDir kept
           (entriesOf (fst (readDirs (snd (snd (ObjectFS.ReadDir Demo.docsDir 2)))
                                     ns))).
Proof.
  apply (@C10_failed_call_drops_its_slice Demo.docsDir 2 ErrObjectNotFound).
  - reflexivity.
  - discriminate.
  - reflexivity.
Defined.






(* ------------------------------------------------------------------ *)
(** ** Building a snapshot *)

Lemma GetCommit_inr s h c :
  object.GetCommit s h = inr c <-> s h = inr (object.IsCommit c).
Proof.
  unfold object.GetCommit.
  destruct (s h) as [err | [c' | t | b |]]; split; intros H;
    try discriminate; congruence.
Qed.

Lemma GetTree_inr s h t :
  object.GetTree s h = inr t <-> s h = inr (object.IsTree t).
Proof.
  unfold object.GetTree.
  destruct (s h) as [err | [c | t' | b |]]; split; intros H;
    try discriminate; congruence.
Qed.

Lemma GetBlob_inr s h b :
  object.GetBlob s h = inr b <-> s h = inr (object.IsBlob b).
Proof.
  unfold object.GetBlob.
  destruct (s h) as [err | [c | t | b' |]]; split; intros H;
    try discriminate; congruence.
Qed.

(** X1: [NewFS] of either adapter succeeds exactly when the revision
    resolves to a hash under which the store holds a commit, and the store
    holds a tree under that commit's tree hash; the snapshot then carries
    that hash, that tree and the repository. *)
Theorem X1_NewFS_snapshot repo rev :
  (forall tree,
      outcome (ObjectFS.NewFS repo rev) = inr tree <->
      exists c,
        git.ResolveRevision repo rev = inr (ObjectFS.t_hash tree) /\
        git.Storer repo (ObjectFS.t_hash tree) = inr (object.IsCommit c) /\
        git.Storer repo (object.TreeHash c)
        = inr (object.IsTree (ObjectFS.t_tree tree)) /\
        ObjectFS.t_repo tree = repo) /\
  (forall tree,
      outcome (FileFS.NewFS repo rev) = inr tree <->
      exists c,
        git.ResolveRevision repo rev = inr (FileFS.hash tree) /\
        git.Storer repo (FileFS.hash tree) = inr (object.IsCommit c) /\
        git.Storer repo (object.TreeHash c)
        = inr (object.IsTree (FileFS.tree tree)) /\
        FileFS.repo tree = repo).
Proof.
  split; intros tree; split.
  - intros H. apply NewFS_inv in H. destruct H as (Hrepo & Hrev & c & Hc & Ht).
    exists c. repeat split; auto. now apply GetTree_inr.
  - intros (c & Hrev & Hc & Ht & Hrepo). unfold ObjectFS.NewFS.
    rewrite (@outcome_bind_ok _ _ _ _ (ObjectFS.t_hash tree)) by exact Hrev.
    rewrite (@outcome_bind_ok _ _ _ _ c)
      by (apply GetCommit_inr; exact Hc).
    rewrite (@outcome_bind_ok _ _ _ _ (ObjectFS.t_tree tree))
      by (apply GetTree_inr; exact Ht).
    rewrite outcome_ret. destruct tree; cbn in *. now subst.
  - intros H. unfold FileFS.NewFS in H.
    bind_inv H. bind_inv H. bind_inv H. apply outcome_ret_inv in H. subst tree.
    cbn in Ha, Ha0, Ha1 |- *. exists a0. repeat split; auto.
    + now apply GetCommit_inr.
    + now apply GetTree_inr.
  - intros (c & Hrev & Hc & Ht & Hrepo). unfold FileFS.NewFS.
    rewrite (@outcome_bind_ok _ _ _ _ (FileFS.hash tree)) by exact Hrev.
    rewrite (@outcome_bind_ok _ _ _ _ c)
      by (apply GetCommit_inr; exact Hc).
    rewrite (@outcome_bind_ok _ _ _ _ (FileFS.tree tree))
      by (apply GetTree_inr; exact Ht).
    rewrite outcome_ret. destruct tree; cbn in *. now subst.
Qed.

(** X2: [NewFS] of either adapter makes at most three calls, in this order:
    it resolves the revision, reads the commit, reads the commit's tree.
    It stops at the first that fails and answers with that error; it
    opens no blob and walks no history. *)
Theorem X2_NewFS_is_cheap repo rev :
  (forallb snapshotCall (calls (ObjectFS.NewFS repo rev)) = true /\
   length (calls (ObjectFS.NewFS repo rev)) <= 3 /\
   calls (FileFS.NewFS repo rev) = calls (ObjectFS.NewFS repo rev)) /\
  (forall err,
      git.ResolveRevision repo rev = inl err ->
      ObjectFS.NewFS repo rev = ([CallResolveRevision rev], inl err)) /\
  (forall h err,
      git.ResolveRevision repo rev = inr h ->
      git.CommitObject repo h = inl err ->
      ObjectFS.NewFS repo rev
      = ([CallResolveRevision rev; CallCommitObject h], inl err)) /\
  (forall h c err,
      git.ResolveRevision repo rev = inr h ->
      git.CommitObject repo h = inr c ->
      object.Commit_Tree (git.Storer repo) c = inl err ->
      ObjectFS.NewFS repo rev
      = ([CallResolveRevision rev; CallCommitObject h;
          CallCommitTree (object.Hash c)], inl err)).
Proof.
  unfold ObjectFS.NewFS, FileFS.NewFS, calls. cbn.
  repeat split.
  - destruct (git.ResolveRevision repo rev) as [err | h]; cbn; [reflexivity |].
    destruct (git.CommitObject repo h) as [err | c]; cbn; [reflexivity |].
    now destruct (object.Commit_Tree (git.Storer repo) c).
  - destruct (git.ResolveRevision repo rev) as [err | h]; cbn; [lia |].
    destruct (git.CommitObject repo h) as [err | c]; cbn; [lia |].
    destruct (object.Commit_Tree (git.Storer repo) c); cbn; lia.
  - destruct (git.ResolveRevision repo rev) as [err | h]; cbn; [reflexivity |].
    destruct (git.CommitObject repo h) as [err | c]; cbn; [reflexivity |].
    now destruct (object.Commit_Tree (git.Storer repo) c).
  - now intros err ->.
  - intros h err -> . cbn. now intros ->.
  - intros h c err ->. cbn. intros ->. cbn. now intros ->.
Qed.

Lemma X2_NewFS_is_cheap_witness :
  ObjectFS.NewFS Demo.repo "v0"
  = ([CallResolveRevision "v0"], inl (ErrOther "reference not found")).
Proof.
  apply (proj1 (proj2 (X2_NewFS_is_cheap Demo.repo "v0"))). reflexivity.
Defined.

(* ------------------------------------------------------------------ *)
(** ** Paths that do not resolve *)

Lemma findEntryFrom_cons s t dir rest :
  rest <> [] ->
  object.findEntryFrom s t (dir :: rest) =
  match object.Tree_dir s t dir with
  | inl err => inl err
  | inr sub => object.findEntryFrom s sub rest
  end.
Proof. destruct rest; [contradiction | reflexivity]. Qed.

Lemma findEntryFrom_descend s dirs :
  forall t last,
    object.findEntryFrom s t (dirs ++ [last]) =
    match descend s t dirs with
    | inl err => inl err
    | inr t' => object.Tree_entry t' last
    end.
Proof.
  induction dirs as [| dir rest IH]; intros t last; [reflexivity |].
  cbn [app descend].
  rewrite findEntryFrom_cons by (now destruct rest).
  destruct (object.Tree_dir s t dir) as [err | sub]; [reflexivity |].
  apply IH.
Qed.


Lemma Tree_entry_error t name err :
  object.Tree_entry t name = inl err -> err = ErrEntryNotFound.
Proof.
  unfold object.Tree_entry. destruct (find _ _); [discriminate |].
  now intros [= <-].
Qed.

(** X3: when every directory on the way of a path is found and the last
    element is missing from the tree reached, [Open] answers
    [fs.ErrNotExist], after the one call that looks the path up. *)
Theorem X3_Open_missing_last_element tree name dirs last t' err :
  (path.Clean name =? ".") = false ->
  strings.SplitSlash name = dirs ++ [last] ->
  descend (git.Storer (ObjectFS.t_repo tree)) (ObjectFS.t_tree tree) dirs
  = inr t' ->
  object.Tree_entry t' last = inl err ->
  ObjectFS.Open tree name = ([CallFindEntry name], inl ErrNotExist).
Proof.
  intros Hclean Hsplit Hdirs Hlast.
  apply Tree_entry_error in Hlast as Herr. subst err.
  unfold ObjectFS.Open. rewrite Hclean. cbn.
  unfold object.Tree_FindEntry.
  now rewrite Hsplit, findEntryFrom_descend, Hdirs, Hlast.
Qed.

Lemma X3_Open_missing_last_element_witness :
  ObjectFS.Open Demo.snapshot "docs/missing"
  = ([CallFindEntry "docs/missing"], inl ErrNotExist).
Proof.
  apply (@X3_Open_missing_last_element
           Demo.snapshot "docs/missing" ["docs"] "missing" Demo.docsTree
           ErrEntryNotFound); reflexivity.
Defined.



(* ------------------------------------------------------------------ *)
(** ** The two constructors, step by step *)

Lemma firstCommit_inv repo query c :
  firstCommit repo query = inr c ->
  exists it, git.Log repo query = inr it /\ git.Next it = inr c.
Proof.
  unfold firstCommit. destruct (git.Log repo query) as [err | it]; [discriminate |].
  eauto.
Qed.

Lemma NewFileInfo_intro commit hash repo fullName mode osMode obj c :
  filemode.ToOSFileMode mode = inr osMode ->
  git.Storer repo hash = inr obj ->
  obj <> object.IsTag ->
  firstCommit repo (historyQuery commit (directoryLike obj) fullName) = inr c ->
  outcome (ObjectFS.NewFileInfo commit hash repo fullName mode) =
  inr {| ObjectFS.commit := commit; ObjectFS.hash := hash;
         ObjectFS.repo := repo; ObjectFS.fullName := fullName;
         ObjectFS.mode := osMode; ObjectFS.size := objectSize obj;
         ObjectFS.isDir := directoryLike obj;
         ObjectFS.modTime := object.When (object.Author c);
         ObjectFS.r := None; ObjectFS.te := [] |}.
Proof.
  intros Hmode Hobj Htag Hc.
  apply firstCommit_inv in Hc. destruct Hc as (it & Hlog & Hnext).
  rewrite <- logOptions_historyQuery in Hlog.
  unfold ObjectFS.NewFileInfo.
  rewrite (@outcome_bind_ok _ _ _ _ osMode) by exact Hmode.
  rewrite (@outcome_bind_ok _ _ _ _ obj) by exact Hobj.
  rewrite (@outcome_bind_ok _ _ _ _ (objectSize obj, directoryLike obj))
    by (destruct obj; try reflexivity; contradiction).
  cbv zeta.
  rewrite (@outcome_bind_ok _ _ _ _ it) by exact Hlog.
  rewrite (@outcome_bind_ok _ _ _ _ c) by exact Hnext.
  reflexivity.
Qed.

(** X5: on every input on which the heavy constructor succeeds, the light
    constructor succeeds too, and builds the same object without its
    content stream and child list. *)
Theorem X5_light_is_heavy_without_content commit hash repo fullName mode heavy :
  outcome (ObjectFS.NewFile commit hash repo fullName mode) = inr heavy ->
  outcome (ObjectFS.NewFileInfo commit hash repo fullName mode)
  = inr (withoutContent heavy).
Proof.
  intros H. apply NewFile_inv in H.
  destruct H as (osMode & obj & c & Hmode & Hobj & Htag & Hc & Hstat & _).
  rewrite (@NewFileInfo_intro commit hash repo fullName mode osMode obj c
                              Hmode Hobj Htag Hc).
  destruct Hstat as (H1 & H2 & H3 & H4 & H5 & H6 & H7 & H8).
  destruct heavy; cbn [ObjectFS.commit ObjectFS.hash ObjectFS.repo
                       ObjectFS.fullName ObjectFS.mode ObjectFS.size
                       ObjectFS.isDir ObjectFS.modTime] in *.
  subst. reflexivity.
Qed.

Lemma X5_light_is_heavy_without_content_witness :
  outcome (ObjectFS.NewFileInfo 1%Z 14%Z Demo.repo "docs/readme.md"
                                filemode.Regular)
  = inr (withoutContent Demo.readmeFile).
Proof.
  apply X5_light_is_heavy_without_content. reflexivity.
Defined.

(** X6: a tree entry mode that git does not know stops both constructors
    before they call into the repository, and stops [Open] right after the
    path is looked up; the error names the mode. *)
Theorem X6_unknown_mode_fails_first commit hash repo fullName mode :
  mode <> filemode.Dir -> mode <> filemode.Submodule ->
  mode <> filemode.Regular -> mode <> filemode.Deprecated ->
  mode <> filemode.Executable -> mode <> filemode.Symlink ->
  ObjectFS.NewFileInfo commit hash repo fullName mode
  = ([], inl (ErrMalformedMode mode)) /\
  ObjectFS.NewFile commit hash repo fullName mode
  = ([], inl (ErrMalformedMode mode)) /\
  (forall tree name f,
      (path.Clean name =? ".") = false ->
      object.Tree_FindEntry (git.Storer (ObjectFS.t_repo tree))
                            (ObjectFS.t_tree tree) name = inr f ->
      object.Mode f = mode ->
      ObjectFS.Open tree name = ([CallFindEntry name], inl (ErrMalformedMode mode))).
Proof.
  intros H1 H2 H3 H4 H5 H6.
  assert (Hmode : filemode.ToOSFileMode mode = inl (ErrMalformedMode mode)).
  { unfold filemode.ToOSFileMode.
    repeat match goal with
           | |- context [(mode =? ?m)%Z] =>
               destruct (Z.eqb_spec mode m); [contradiction |]
           end.
    reflexivity. }
  repeat split.
  - unfold ObjectFS.NewFileInfo. now rewrite Hmode.
  - unfold ObjectFS.NewFile. now rewrite Hmode.
  - intros tree name f Hclean Hfind <-.
    unfold ObjectFS.Open. rewrite Hclean. cbn [call]. rewrite Hfind.
    cbn [bind Monad_M]. unfold ObjectFS.NewFile. rewrite Hmode. reflexivity.
Qed.

Lemma X6_unknown_mode_fails_first_witness :
  ObjectFS.NewFileInfo 1%Z 11%Z Demo.repo "a.go" filemode.Empty
  = ([], inl (ErrMalformedMode filemode.Empty)).
Proof.
  apply (@X6_unknown_mode_fails_first 1%Z 11%Z Demo.repo "a.go" filemode.Empty);
    discriminate.
Defined.

(** X7: an object that is neither a tree, a commit nor a blob (a tag)
    stops both constructors right after it is read from the store, with
    an error naming its type; no history is walked. *)
Theorem X7_tag_is_not_a_file commit hash repo fullName mode osMode :
  filemode.ToOSFileMode mode = inr osMode ->
  git.Storer repo hash = inr object.IsTag ->
  ObjectFS.NewFileInfo commit hash repo fullName mode
  = ([CallGetObject hash], inl (Errorf "cannot get file info from *object.Tag")) /\
  ObjectFS.NewFile commit hash repo fullName mode
  = ([CallGetObject hash], inl (Errorf "cannot get file info from *object.Tag")).
Proof.
  intros Hmode Hobj.
  unfold ObjectFS.NewFileInfo, ObjectFS.NewFile, object.GetObject.
  rewrite Hmode, Hobj. split; reflexivity.
Qed.

Lemma X7_tag_is_not_a_file_witness :
  ObjectFS.NewFileInfo 1%Z 40%Z Demo.tagged "v1.0" filemode.Regular
  = ([CallGetObject 40%Z],
     inl (Errorf "cannot get file info from *object.Tag")).
Proof.
  apply (@X7_tag_is_not_a_file 1%Z 40%Z Demo.tagged "v1.0" filemode.Regular 420%Z);
    reflexivity.
Defined.

(** X8: once the history traversal has started, the light constructor
    asks it for one commit and closes it, also when no commit comes: the
    error of the traversal is then the constructor's answer, [io.EOF] for
    a traversal that finds nothing.  When the traversal cannot start, its
    error is the answer and nothing is closed. *)
Theorem X8_history_is_closed commit hash repo fullName mode osMode obj :
  filemode.ToOSFileMode mode = inr osMode ->
  git.Storer repo hash = inr obj ->
  obj <> object.IsTag ->
  (forall err,
      git.Log repo (historyQuery commit (directoryLike obj) fullName) = inl err ->
      ObjectFS.NewFileInfo commit hash repo fullName mode
      = ([CallGetObject hash;
          CallLog (historyQuery commit (directoryLike obj) fullName)],
         inl err)) /\
  (forall it err,
      git.Log repo (historyQuery commit (directoryLike obj) fullName) = inr it ->
      git.Next it = inl err ->
      ObjectFS.NewFileInfo commit hash repo fullName mode
      = ([CallGetObject hash;
          CallLog (historyQuery commit (directoryLike obj) fullName);
          CallNext; CallIterClose],
         inl err)) /\
  (git.Log repo (historyQuery commit (directoryLike obj) fullName) = inr [] ->
   outcome (ObjectFS.NewFileInfo commit hash repo fullName mode) = inl EOF) /\
  (forall it c,
      git.Log repo (historyQuery commit (directoryLike obj) fullName) = inr it ->
      git.Next it = inr c ->
      calls (ObjectFS.NewFileInfo commit hash repo fullName mode)
      = [CallGetObject hash;
         CallLog (historyQuery commit (directoryLike obj) fullName);
         CallNext; CallIterClose]).
Proof.
  intros Hmode Hobj Htag.
  assert (Hrun : ObjectFS.NewFileInfo commit hash repo fullName mode =
                 match git.Log repo (historyQuery commit (directoryLike obj)
                                                  fullName) with
                 | inl err =>
                     ([CallGetObject hash;
                       CallLog (historyQuery commit (directoryLike obj) fullName)],
                      inl err)
                 | inr it =>
                     ([CallGetObject hash;
                       CallLog (historyQuery commit (directoryLike obj) fullName);
                       CallNext; CallIterClose],
                      match git.Next it with
                      | inl err => inl err
                      | inr c =>
                          inr {| ObjectFS.commit := commit; ObjectFS.hash := hash;
                                 ObjectFS.repo := repo;
                                 ObjectFS.fullName := fullName;
                                 ObjectFS.mode := osMode;
                                 ObjectFS.size := objectSize obj;
                                 ObjectFS.isDir := directoryLike obj;
                                 ObjectFS.modTime := object.When (object.Author c);
                                 ObjectFS.r := None; ObjectFS.te := [] |}
                      end)
                 end).
  { unfold ObjectFS.NewFileInfo, object.GetObject.
    rewrite Hmode, Hobj. cbn [bind Monad_M call app].
    destruct obj as [c | t | b |]; try contradiction;
      cbn [bind Monad_M ret app directoryLike objectSize];
      rewrite logOptions_historyQuery;
      (destruct (git.Log repo _) as [err | it]; [reflexivity |]);
      unfold NextThenClose; cbn [app];
      destruct (git.Next it); reflexivity. }
  rewrite Hrun. repeat split.
  - now intros err ->.
  - now intros it err -> ->.
  - now intros ->.
  - intros it c -> _. reflexivity.
Qed.

Lemma X8_history_is_closed_witness :
  outcome (ObjectFS.NewFileInfo 1%Z 11%Z Demo.withoutHistory "a.go"
                                filemode.Regular)
  = inl EOF.
Proof.
  apply (@X8_history_is_closed
           1%Z 11%Z Demo.withoutHistory "a.go" filemode.Regular 420%Z
           (Demo.blob 11%Z [Byte.x70; Byte.x6b; Byte.x67]));
    try reflexivity.
  discriminate.
Defined.

(** X9: what [Open] answers for a path other than the root is built from
    the tree entry the path resolves to: it carries the entry's hash, the
    translation of the entry's mode, the cleaned path and the snapshot's
    commit; for a tree its cursor holds the entries of the tree exactly as
    stored and it has no content stream; for a blob it has the blob's
    size, the blob's content stream and an empty cursor. *)
Theorem X9_Open_builds_from_the_entry tree name o :
  (path.Clean name =? ".") = false ->
  outcome (ObjectFS.Open tree name) = inr o ->
  exists f obj,
    object.Tree_FindEntry (git.Storer (ObjectFS.t_repo tree))
                          (ObjectFS.t_tree tree) name = inr f /\
    git.Storer (ObjectFS.t_repo tree) (object.entryHash f) = inr obj /\
    ObjectFS.hash o = object.entryHash f /\
    filemode.ToOSFileMode (object.Mode f) = inr (ObjectFS.mode o) /\
    ObjectFS.fullName o = path.Clean name /\
    ObjectFS.commit o = ObjectFS.t_hash tree /\
    ObjectFS.repo o = ObjectFS.t_repo tree /\
    match obj with
    | object.IsTree v =>
        ObjectFS.isDir o = true /\ ObjectFS.size o = 0%Z /\
        ObjectFS.r o = None /\ ObjectFS.te o = object.Entries v
    | object.IsBlob v =>
        ObjectFS.isDir o = false /\ ObjectFS.size o = object.Size v /\
        object.Reader v = inr (match ObjectFS.r o with
                               | Some rd => rd
                               | None => {| unread := []; closeErr := None |}
                               end) /\
        ObjectFS.r o <> None /\ ObjectFS.te o = []
    | object.IsCommit v =>
        exists t,
          object.Commit_Tree (git.Storer (ObjectFS.t_repo tree)) v = inr t /\
          ObjectFS.isDir o = true /\ ObjectFS.size o = 0%Z /\
          ObjectFS.r o = None /\ ObjectFS.te o = object.Entries t
    | object.IsTag => False
    end.
Proof.
  intros Hclean H. apply Open_inv in H. destruct H as (mode & hash & H & Hentry).
  rewrite Hclean in Hentry. destruct Hentry as (f & Hfind & -> & ->).
  apply NewFile_inv in H.
  destruct H as (osMode & obj & c & Hmode & Hobj & Htag & _ & Hstat & Hcontent).
  destruct Hstat as (H1 & H2 & H3 & H4 & H5 & H6 & H7 & _).
  exists f, obj. rewrite H1, H2, H3, H4, H5, H6, H7.
  repeat (split; [assumption || reflexivity |]).
  destruct obj as [v | v | v |]; cbn [directoryLike objectSize].
  - destruct Hcontent as (t & Ht & Hr & Hte). exists t. auto.
  - destruct Hcontent as (Hr & Hte). auto.
  - destruct Hcontent as (rd & Hrd & Hr & Hte). rewrite Hr.
    repeat split; auto. discriminate.
  - assumption.
Qed.

Lemma X9_Open_builds_from_the_entry_witness :
  exists f obj,
    object.Tree_FindEntry Demo.store Demo.rootTree "docs" = inr f /\
    Demo.store (object.entryHash f) = inr obj /\
    ObjectFS.hash Demo.docsDir = object.entryHash f /\
    filemode.ToOSFileMode (object.Mode f) = inr (ObjectFS.mode Demo.docsDir) /\
    ObjectFS.fullName Demo.docsDir = path.Clean "docs" /\
    ObjectFS.commit Demo.docsDir = ObjectFS.t_hash Demo.snapshot /\
    ObjectFS.repo Demo.docsDir = Demo.repo /\
    match obj with
    | object.IsTree v =>
        ObjectFS.isDir Demo.docsDir = true /\ ObjectFS.size Demo.docsDir = 0%Z /\
        ObjectFS.r Demo.docsDir = None /\
        ObjectFS.te Demo.docsDir = object.Entries v
    | object.IsBlob v =>
        ObjectFS.isDir Demo.docsDir = false /\
        ObjectFS.size Demo.docsDir = object.Size v /\
        object.Reader v = inr (match ObjectFS.r Demo.docsDir with
                               | Some rd => rd
                               | None => {| unread := []; closeErr := None |}
                               end) /\
        ObjectFS.r Demo.docsDir <> None /\ ObjectFS.te Demo.docsDir = []
    | object.IsCommit v =>
        exists t,
          object.Commit_Tree Demo.store v = inr t /\
          ObjectFS.isDir Demo.docsDir = true /\
          ObjectFS.size Demo.docsDir = 0%Z /\
          ObjectFS.r Demo.docsDir = None /\
          ObjectFS.te Demo.docsDir = object.Entries t
    | object.IsTag => False
    end.
Proof.
  apply (@X9_Open_builds_from_the_entry Demo.snapshot "docs" Demo.docsDir);
    reflexivity.
Defined.

(* ------------------------------------------------------------------ *)
(** ** More on enumerating a directory *)

Lemma listed_In_entry o vs ds d :
  listed o vs ds -> In d ds ->
  exists v, In v vs /\ outcome (childInfo o v) = inr d.
Proof.
  induction 1 as [| v' d' vs' ds' Hd _ IH]; cbn; [contradiction |].
  intros [<- | Hin].
  - eauto.
  - destruct (IH Hin) as (v & Hv & Hvd). eauto.
Qed.

Lemma cursor_cases (o : ObjectFS.Object) :
  ObjectFS.te o = [] \/ ObjectFS.te o <> [].
Proof. destruct (ObjectFS.te o); [now left | right; discriminate]. Qed.

(** Every call of [ReadDir] leaves the object as it was but for the
    cursor, which loses the entries sliced off. *)
Lemma ReadDir_object o n :
  exists k,
    k <= length (ObjectFS.te o) /\
    snd (snd (ObjectFS.ReadDir o n))
    = ObjectFS.set_te o (skipn k (ObjectFS.te o)).
Proof.
  destruct (ObjectFS.isDir o) eqn:Hdir.
  - destruct (cursor_cases o) as [Hnil | Hte].
    + exists 0. split; [lia |]. rewrite ReadDir_empty by assumption.
      cbn [snd skipn]. now rewrite set_te_same.
    + exists (sliced (length (ObjectFS.te o)) n).
      split; [apply sliced_le |].
      now rewrite (@ReadDir_slice o n Hdir Hte).
  - exists 0. split; [lia |]. rewrite ReadDir_not_dir by assumption.
    cbn [snd skipn]. now rewrite set_te_same.
Qed.

(** The entries a call returns are light entries of children it sliced
    off the cursor. *)
Lemma ReadDir_entries o n d :
  In d (fst (fst (snd (ObjectFS.ReadDir o n)))) ->
  exists v,
    In v (firstn (sliced (length (ObjectFS.te o)) n) (ObjectFS.te o)) /\
    outcome (childInfo o v) = inr d.
Proof.
  destruct (ObjectFS.isDir o) eqn:Hdir.
  - destruct (cursor_cases o) as [Hnil | Hte].
    + rewrite ReadDir_empty by assumption. contradiction.
    + rewrite (@ReadDir_slice o n Hdir Hte). cbn [fst].
      destruct (outcome (ObjectFS.readDirLoop o _)) as [err | ds] eqn:Hloop;
        cbn [fst]; [contradiction |].
      apply readDirLoop_listed in Hloop. intros Hin.
      eapply listed_In_entry; eauto.
  - rewrite ReadDir_not_dir by assumption. contradiction.
Qed.

(** X10: an entry returned by [ReadDir] has neither a cursor nor a content
    stream.  Used as a handle, a directory entry lists as an empty
    directory, and reading or closing a file entry panics on the nil
    stream. *)
Theorem X10_listed_entries_are_not_handles o n d :
  In d (fst (fst (snd (ObjectFS.ReadDir o n)))) ->
  ObjectFS.te d = [] /\ ObjectFS.r d = None /\
  (ObjectFS.isDir d = true ->
   forall m, ObjectFS.ReadDir d m = ([], (endOfSequence, d))) /\
  (ObjectFS.isDir d = false ->
   (forall len_b, ObjectFS.Read d len_b = ObjectFS.Panics) /\
   ObjectFS.Close d = ObjectFS.Panics).
Proof.
  intros Hin. apply ReadDir_entries in Hin. destruct Hin as (v & _ & Hd).
  apply NewFileInfo_inv in Hd.
  destruct Hd as (osMode & obj & c & _ & _ & _ & _ & _ & Hr & Hte).
  repeat split; auto.
  - intros Hdir m. now apply ReadDir_empty.
  - intros len_b. unfold ObjectFS.Read. now rewrite H, Hr.
  - unfold ObjectFS.Close. now rewrite H, Hr.
Qed.

Lemma X10_listed_entries_are_not_handles_witness :
  ObjectFS.te Demo.readmeInfo = [] /\ ObjectFS.r Demo.readmeInfo = None /\
  (ObjectFS.isDir Demo.readmeInfo = true ->
   forall m, ObjectFS.ReadDir Demo.readmeInfo m
             = ([], (endOfSequence, Demo.readmeInfo))) /\
  (ObjectFS.isDir Demo.readmeInfo = false ->
   (forall len_b, ObjectFS.Read Demo.readmeInfo len_b = ObjectFS.Panics) /\
   ObjectFS.Close Demo.readmeInfo = ObjectFS.Panics).
Proof.
  apply (@X10_listed_entries_are_not_handles Demo.docsDir 1 Demo.readmeInfo).
  left. reflexivity.
Defined.

(** X11: closing a directory answers no error and empties its cursor:
    every later call of [ReadDir] signals the end of the sequence and
    returns nothing, and closing again changes nothing more.  Closing a
    file that was opened for reading answers what closing its stream
    answers. *)
Theorem X11_Close o :
  (ObjectFS.isDir o = true ->
   ObjectFS.Close o = ObjectFS.Returns (None, ObjectFS.set_te o []) /\
   ObjectFS.Close (ObjectFS.set_te o [])
   = ObjectFS.Returns (None, ObjectFS.set_te o []) /\
   forall ns,
     Forall (fun res => res = endOfSequence)
            (fst (readDirs (ObjectFS.set_te o []) ns)) /\
     snd (readDirs (ObjectFS.set_te o []) ns) = ObjectFS.set_te o []) /\
  (forall rd,
      ObjectFS.isDir o = false -> ObjectFS.r o = Some rd ->
      ObjectFS.Close o = ObjectFS.Returns (closeErr rd, o)).
Proof.
  split.
  - intros Hdir. unfold ObjectFS.Close. cbn [ObjectFS.isDir ObjectFS.set_te].
    rewrite Hdir. repeat split.
    + induction ns as [| n ns IH]; [constructor |].
      rewrite readDirs_cons, ReadDir_empty by (exact Hdir || reflexivity).
      cbn [fst snd]. now constructor.
    + induction ns as [| n ns IH]; [reflexivity |].
      rewrite readDirs_cons, ReadDir_empty by (exact Hdir || reflexivity).
      cbn [fst snd]. exact IH.
  - intros rd Hfile Hr. unfold ObjectFS.Close. now rewrite Hfile, Hr.
Qed.

Lemma X11_Close_witness :
  ObjectFS.Close Demo.docsDir
  = ObjectFS.Returns (None, ObjectFS.set_te Demo.docsDir []) /\
  ObjectFS.Close Demo.readmeFile = ObjectFS.Returns (None, Demo.readmeFile).
Proof.
  split.
  - apply (proj1 (X11_Close Demo.docsDir)). reflexivity.
  - apply (proj2 (X11_Close Demo.readmeFile)
                 {| unread := [Byte.x23]; closeErr := None |});
      reflexivity.
Defined.

(** X12: whatever calls of [ReadDir] are made on an object, and whether
    they fail or not, they leave all of it as it was but the cursor, and
    the cursor they leave is what remains of the one they found after some
    number of entries at its front is dropped: it never grows and never
    changes order. *)
Theorem X12_ReadDir_only_shortens_the_cursor o ns :
  exists j,
    j <= length (ObjectFS.te o) /\
    snd (readDirs o ns) = ObjectFS.set_te o (skipn j (ObjectFS.te o)).
Proof.
  revert o. induction ns as [| n ns IH]; intros o.
  - exists 0. split; [lia |]. cbn. now rewrite set_te_same.
  - rewrite readDirs_cons. cbn [snd].
    destruct (ReadDir_object o n) as (k & Hk & ->).
    destruct (IH (ObjectFS.set_te o (skipn k (ObjectFS.te o)))) as (j & Hj & ->).
    cbn [ObjectFS.te ObjectFS.set_te] in *.
    rewrite length_skipn in Hj.
    exists (k + j). split; [lia |].
    now rewrite skipn_plus.
Qed.

Lemma sliced_min (len : nat) (n : Z) :
  (0 <= n)%Z -> sliced len n = Nat.min len (Z.to_nat n).
Proof.
  unfold sliced. intros Hn.
  destruct (n <? 0)%Z eqn:Hneg; [apply Z.ltb_lt in Hneg; lia |]. cbn.
  destruct (Z.of_nat len <? n)%Z eqn:Hbig.
  - apply Z.ltb_lt in Hbig. lia.
  - apply Z.ltb_ge in Hbig. lia.
Qed.

(** X13: a call of [ReadDir] never returns more entries than it was asked
    for (when the count is not negative) nor more than the cursor holds;
    a call that answers no error returns exactly as many entries as it
    took off the cursor: the count asked for, or all that are left when
    the count is negative or larger. *)
Theorem X13_ReadDir_returns_what_it_slices o n :
  length (fst (fst (snd (ObjectFS.ReadDir o n)))) <= length (ObjectFS.te o) /\
  ((0 <= n)%Z ->
   length (fst (fst (snd (ObjectFS.ReadDir o n)))) <= Z.to_nat n) /\
  (snd (fst (snd (ObjectFS.ReadDir o n))) = None ->
   length (fst (fst (snd (ObjectFS.ReadDir o n))))
   = sliced (length (ObjectFS.te o)) n /\
   ObjectFS.te (snd (snd (ObjectFS.ReadDir o n)))
   = skipn (sliced (length (ObjectFS.te o)) n) (ObjectFS.te o) /\
   ((n < 0)%Z -> ObjectFS.te (snd (snd (ObjectFS.ReadDir o n))) = [])).
Proof.
  assert (Hlen : length (fst (fst (snd (ObjectFS.ReadDir o n))))
                 <= sliced (length (ObjectFS.te o)) n /\
                 (snd (fst (snd (ObjectFS.ReadDir o n))) = None ->
                  length (fst (fst (snd (ObjectFS.ReadDir o n))))
                  = sliced (length (ObjectFS.te o)) n /\
                  ObjectFS.te (snd (snd (ObjectFS.ReadDir o n)))
                  = skipn (sliced (length (ObjectFS.te o)) n) (ObjectFS.te o))).
  { destruct (ObjectFS.isDir o) eqn:Hdir.
    - destruct (cursor_cases o) as [Hnil | Hte].
      + rewrite ReadDir_empty by assumption. cbn. split; [lia | discriminate].
      + rewrite (@ReadDir_slice o n Hdir Hte). cbn [fst snd].
        destruct (outcome (ObjectFS.readDirLoop o _)) as [err | ds] eqn:Hloop;
          cbn [fst snd length]; [split; [lia | discriminate] |].
        apply readDirLoop_listed, listed_length in Hloop.
        rewrite <- Hloop, length_firstn.
        pose proof (sliced_le (length (ObjectFS.te o)) n).
        split; [lia |]. intros _. split; [lia | reflexivity].
    - rewrite ReadDir_not_dir by assumption. cbn. split; [lia | discriminate]. }
  destruct Hlen as (Hle & Hok).
  pose proof (sliced_le (length (ObjectFS.te o)) n) as Hk.
  repeat split.
  - lia.
  - intros Hn. rewrite (sliced_min _ Hn) in Hle. lia.
  - now apply Hok.
  - now apply Hok.
  - intros Hneg. destruct (Hok H) as (_ & ->).
    rewrite (sliced_all _ Hneg). apply skipn_all.
Qed.

Lemma X13_ReadDir_returns_what_it_slices_witness :
  length (fst (fst (snd (ObjectFS.ReadDir Demo.rootDir 2))))
  = sliced (length (ObjectFS.te Demo.rootDir)) 2 /\
  ObjectFS.te (snd (snd (ObjectFS.ReadDir Demo.rootDir 2)))
  = skipn (sliced (length (ObjectFS.te Demo.rootDir)) 2)
          (ObjectFS.te Demo.rootDir) /\
  ((2 < 0)%Z -> ObjectFS.te (snd (snd (ObjectFS.ReadDir Demo.rootDir 2))) = []).
Proof.
  apply (proj2 (proj2 (X13_ReadDir_returns_what_it_slices Demo.rootDir 2))).
  reflexivity.
Defined.

Lemma readDirLoop_calls o vs ev :
  In ev (calls (ObjectFS.readDirLoop o vs)) ->
  exists v, In v vs /\ In ev (calls (childInfo o v)).
Proof.
  induction vs as [| v rest IH]; [contradiction |].
  rewrite readDirLoop_childInfo, calls_bind. intros Hin.
  apply in_app_or in Hin. destruct Hin as [Hin | Hin].
  - exists v. split; [now left | assumption].
  - destruct (outcome (childInfo o v)) as [err | d]; [contradiction |].
    rewrite calls_bind in Hin. apply in_app_or in Hin.
    destruct Hin as [Hin | Hin].
    + destruct (IH Hin) as (v' & Hv' & Hev). exists v'. split; [now right | assumption].
    + destruct (outcome (ObjectFS.readDirLoop o rest)); contradiction.
Qed.

(** X14: a call of [ReadDir] reads from the store only objects of the
    children it slices off the cursor, and for the rest only walks
    history: it opens no blob, looks up no path and touches no child
    beyond the slice. *)
Theorem X14_ReadDir_reads_only_its_slice o n ev :
  In ev (fst (ObjectFS.ReadDir o n)) ->
  (exists v,
      In v (firstn (sliced (length (ObjectFS.te o)) n) (ObjectFS.te o)) /\
      ev = CallGetObject (object.entryHash v)) \/
  ev = CallNext \/ ev = CallIterClose \/ exists opts, ev = CallLog opts.
Proof.
  destruct (ObjectFS.isDir o) eqn:Hdir.
  - destruct (cursor_cases o) as [Hnil | Hte].
    + rewrite ReadDir_empty by assumption. contradiction.
    + assert (Hcalls : fst (ObjectFS.ReadDir o n)
                       = calls (ObjectFS.readDirLoop
                                  o (firstn (sliced (length (ObjectFS.te o)) n)
                                            (ObjectFS.te o)))).
      { unfold ObjectFS.ReadDir. rewrite Hdir. cbn [negb].
        destruct (ObjectFS.te o) as [| v rest] eqn:Hcursor; [contradiction |].
        cbn [length Nat.eqb]. rewrite readDirLoop_set_te.
        assert (Hk : Z.to_nat (if ((n <? 0) || (Z.of_nat (S (length rest)) <? n))%Z
                               then Z.of_nat (S (length rest)) else n)
                     = sliced (S (length rest)) n).
        { unfold sliced.
          destruct ((n <? 0) || (Z.of_nat (S (length rest)) <? n))%Z;
            [apply Nat2Z.id | reflexivity]. }
        rewrite Hk. unfold calls.
        now destruct (ObjectFS.readDirLoop o _) as [t [err | ds]]. }
      rewrite Hcalls. intros Hin. apply readDirLoop_calls in Hin.
      destruct Hin as (v & Hv & Hev). apply NewFileInfo_calls in Hev.
      destruct Hev as [-> | Hev]; [left; eauto | right; exact Hev].
  - rewrite ReadDir_not_dir by assumption. contradiction.
Qed.

Lemma X14_ReadDir_reads_only_its_slice_witness :
  (exists v,
      In v (firstn (sliced (length (ObjectFS.te Demo.rootDir)) 1)
                   (ObjectFS.te Demo.rootDir)) /\
      CallGetObject 11%Z = CallGetObject (object.entryHash v)) \/
  CallGetObject 11%Z = CallNext \/ CallGetObject 11%Z = CallIterClose \/
  exists opts, CallGetObject 11%Z = CallLog opts.
Proof.
  apply (@X14_ReadDir_reads_only_its_slice Demo.rootDir 1 (CallGetObject 11%Z)).
  left. reflexivity.
Defined.

(* ------------------------------------------------------------------ *)
(** ** Names of listed entries *)

Lemma append_assoc (s1 s2 s3 : string) :
  String.append (String.append s1 s2) s3 = String.append s1 (String.append s2 s3).
Proof. induction s1 as [| c s1 IH]; cbn; [reflexivity | now rewrite IH]. Qed.

Lemma append_not_empty (s1 s2 : string) (c : ascii) :
  String.append s1 (String c s2) <> "".
Proof. destruct s1; discriminate. Qed.

Lemma or_dot_not_empty (out : string) :
  out <> "" -> (if out =? "" then "." else out) = out.
Proof. intros H. apply String.eqb_neq in H. now rewrite H. Qed.

Lemma SplitSlash_not_nil (s : string) : strings.SplitSlash s <> [].
Proof.
  induction s as [| c s IH]; cbn; [discriminate |].
  destruct (Ascii.eqb c "/"); [discriminate |].
  destruct (strings.SplitSlash s); [contradiction | discriminate].
Qed.

Lemma SplitSlash_noSlash (s : string) :
  noSlash s = true -> strings.SplitSlash s = [s].
Proof.
  induction s as [| c s IH]; cbn; [reflexivity |].
  destruct (Ascii.eqb c "/"); cbn; [discriminate |].
  intros H. now rewrite (IH H).
Qed.

Lemma SplitSlash_append (x y : string) :
  strings.SplitSlash (String.append x (String "/" y))
  = strings.SplitSlash x ++ strings.SplitSlash y.
Proof.
  induction x as [| c x IH]; [reflexivity |].
  cbn [String.append strings.SplitSlash].
  destruct (Ascii.eqb c "/").
  - now rewrite IH.
  - rewrite IH.
    destruct (strings.SplitSlash x) as [| piece pieces] eqn:Hx;
      [now destruct (SplitSlash_not_nil x) | reflexivity].
Qed.

Lemma concat_snoc (l : list string) (b : string) :
  String.concat "/" (l ++ [b]) =
  match l with
  | [] => b
  | _ => String.append (String.concat "/" l) (String "/" b)
  end.
Proof.
  induction l as [| x l IH]; [reflexivity |].
  cbn [app]. destruct l as [| y l].
  - reflexivity.
  - change (String.concat "/" (x :: (y :: l) ++ [b]))
      with (String.append x (String.append "/" (String.concat "/" ((y :: l) ++ [b])))).
    rewrite IH.
    change (String.concat "/" (x :: y :: l))
      with (String.append x (String.append "/" (String.concat "/" (y :: l)))).
    now rewrite !append_assoc.
Qed.

Lemma plainName_inv (b : string) :
  plainName b = true ->
  noSlash b = true /\ b <> "" /\ (b =? "") = false /\ (b =? ".") = false /\
  (b =? "..") = false.
Proof.
  unfold plainName. intros H.
  apply andb_prop in H. destruct H as [H H3].
  apply andb_prop in H. destruct H as [H H2].
  apply andb_prop in H. destruct H as [H0 H1].
  apply negb_true_iff in H1, H2, H3.
  repeat split; auto. now apply String.eqb_neq.
Qed.

(** [path.Base] of a path that ends in a slash and a plain name [b], or
    that is [b] alone, is [b]. *)
Lemma Base_plain (b : string) :
  plainName b = true -> path.Base b = b.
Proof.
  intros H. apply plainName_inv in H. destruct H as (Hns & _ & Hne & _).
  unfold path.Base. rewrite Hne, (@SplitSlash_noSlash b Hns). cbn.
  now rewrite Hne.
Qed.

Lemma Base_after_slash (y b : string) :
  plainName b = true -> path.Base (String.append y (String "/" b)) = b.
Proof.
  intros H. apply plainName_inv in H. destruct H as (Hns & _ & Hne & _).
  unfold path.Base.
  destruct (String.append y (String "/" b) =? "") eqn:Hempty.
  - apply String.eqb_eq in Hempty. now destruct (append_not_empty y b "/").
  - rewrite SplitSlash_append, (@SplitSlash_noSlash b Hns), filter_app.
    cbn [filter]. rewrite Hne. cbn [negb].
    destruct (filter _ (strings.SplitSlash y)) as [| e es]; [reflexivity |].
    cbn [app]. apply last_last.
Qed.

Lemma cleanStep_plain (rooted : bool) (kept : list string) (b : string) :
  plainName b = true -> path.cleanStep rooted kept b = b :: kept.
Proof.
  intros H. apply plainName_inv in H. destruct H as (_ & _ & H0 & H1 & H2).
  unfold path.cleanStep. now rewrite H0, H1, H2.
Qed.

(** [path.Clean] keeps a plain last element. *)
Lemma Clean_ends_with (a b : string) :
  plainName b = true ->
  path.Clean (String.append a (String "/" b)) = b \/
  exists y, path.Clean (String.append a (String "/" b))
            = String.append y (String "/" b).
Proof.
  intros Hb. pose proof (@plainName_inv b Hb) as (Hns & Hne & _).
  unfold path.Clean.
  destruct (String.append a (String "/" b) =? "") eqn:Hempty;
    [apply String.eqb_eq in Hempty; now destruct (append_not_empty a b "/") |].
  rewrite SplitSlash_append, (@SplitSlash_noSlash b Hns), fold_left_app.
  cbn [fold_left]. rewrite cleanStep_plain by exact Hb. cbn [rev].
  rewrite concat_snoc.
  set (rooted := String.prefix "/" (String.append a (String "/" b))).
  set (kept := fold_left (path.cleanStep rooted) (strings.SplitSlash a) []).
  destruct (rev kept) as [| x xs]; destruct rooted.
  - right. exists "". rewrite or_dot_not_empty by discriminate. reflexivity.
  - left. now rewrite or_dot_not_empty.
  - right. exists (String.append "/" (String.concat "/" (x :: xs))).
    rewrite or_dot_not_empty by discriminate. now rewrite <- append_assoc.
  - right. exists (String.concat "/" (x :: xs)).
    now rewrite or_dot_not_empty by apply append_not_empty.
Qed.

Lemma Clean_plain (b : string) : plainName b = true -> path.Clean b = b.
Proof.
  intros Hb. pose proof (@plainName_inv b Hb) as (Hns & Hne & H0 & _).
  unfold path.Clean. rewrite H0, (@SplitSlash_noSlash b Hns).
  cbn [fold_left]. rewrite cleanStep_plain by exact Hb. cbn.
  assert (Hroot : String.prefix "/" b = false).
  { destruct b as [| c b]; [contradiction |].
    cbn [noSlash] in Hns. cbn [String.prefix].
    destruct (Ascii.ascii_dec "/" c) as [<- | _]; [| reflexivity].
    now rewrite Ascii.eqb_refl in Hns. }
  rewrite Hroot. now rewrite H0.
Qed.

(** The base name of a directory's path joined with a plain name is that
    name. *)
Lemma Base_Join (a b : string) :
  plainName b = true -> path.Base (path.Join a b) = b.
Proof.
  intros Hb. pose proof (@plainName_inv b Hb) as (_ & _ & H0 & _).
  unfold path.Join. rewrite H0, andb_false_r.
  destruct (a =? "").
  - rewrite Clean_plain by exact Hb. now apply Base_plain.
  - change (String.append "/" b) with (String "/" b).
    destruct (@Clean_ends_with a b Hb) as [-> | (y & ->)].
    + now apply Base_plain.
    + now apply Base_after_slash.
Qed.

(** X15: every entry [ReadDir] returns stands for one child of the
    slice: it carries the child's hash, the translation of the child's
    mode, the directory's commit and repository, and the directory's path
    joined with the child's name; for a child with a plain name, [Name]
    of the entry is that name. *)
Theorem X15_listed_entry_names_its_child o n d :
  In d (fst (fst (snd (ObjectFS.ReadDir o n)))) ->
  exists v,
    In v (firstn (sliced (length (ObjectFS.te o)) n) (ObjectFS.te o)) /\
    ObjectFS.hash d = object.entryHash v /\
    filemode.ToOSFileMode (object.Mode v) = inr (ObjectFS.Mode d) /\
    ObjectFS.commit d = ObjectFS.commit o /\
    ObjectFS.repo d = ObjectFS.repo o /\
    ObjectFS.fullName d = path.Join (ObjectFS.fullName o) (object.Name v) /\
    (plainName (object.Name v) = true -> ObjectFS.Name d = object.Name v).
Proof.
  intros Hin. apply ReadDir_entries in Hin. destruct Hin as (v & Hv & Hd).
  apply NewFileInfo_inv in Hd.
  destruct Hd as (osMode & obj & c & Hmode & _ & _ & _ & Hstat & _).
  destruct Hstat as (H1 & H2 & H3 & H4 & H5 & _).
  exists v. unfold ObjectFS.Mode, ObjectFS.Name. rewrite H1, H2, H3, H4, H5.
  repeat split; auto.
  intros Hplain. now apply Base_Join.
Qed.

Lemma X15_listed_entry_names_its_child_witness :
  exists v,
    In v (firstn (sliced (length (ObjectFS.te Demo.docsDir)) 1)
                 (ObjectFS.te Demo.docsDir)) /\
    ObjectFS.hash Demo.readmeInfo = object.entryHash v /\
    filemode.ToOSFileMode (object.Mode v) = inr (ObjectFS.Mode Demo.readmeInfo) /\
    ObjectFS.commit Demo.readmeInfo = ObjectFS.commit Demo.docsDir /\
    ObjectFS.repo Demo.readmeInfo = ObjectFS.repo Demo.docsDir /\
    ObjectFS.fullName Demo.readmeInfo
    = path.Join (ObjectFS.fullName Demo.docsDir) (object.Name v) /\
    (plainName (object.Name v) = true ->
     ObjectFS.Name Demo.readmeInfo = object.Name v).
Proof.
  apply (@X15_listed_entry_names_its_child Demo.docsDir 1 Demo.readmeInfo).
  left. reflexivity.
Defined.

(** X16: for an object either constructor builds from a tree entry mode,
    [Type] is the directory bit for the modes of a directory and of a
    submodule, the symlink bit for the mode of a symlink, and no bit for
    the three modes of a regular file; the permission bits are 0777, 0777,
    0644 and 0755 in the same order. *)
Theorem X16_Type_of_built_objects commit hash repo fullName mode o :
  outcome (ObjectFS.NewFile commit hash repo fullName mode) = inr o \/
  outcome (ObjectFS.NewFileInfo commit hash repo fullName mode) = inr o ->
  ((mode = filemode.Dir \/ mode = filemode.Submodule) /\
   ObjectFS.Type_ o = fs.ModeDir /\
   Z.land (ObjectFS.Mode o) fs.ModePerm = 511%Z) \/
  (mode = filemode.Symlink /\
   ObjectFS.Type_ o = fs.ModeSymlink /\
   Z.land (ObjectFS.Mode o) fs.ModePerm = 511%Z) \/
  ((mode = filemode.Regular \/ mode = filemode.Deprecated) /\
   ObjectFS.Type_ o = 0%Z /\ ObjectFS.Mode o = 420%Z) \/
  (mode = filemode.Executable /\
   ObjectFS.Type_ o = 0%Z /\ ObjectFS.Mode o = 493%Z).
Proof.
  intros H.
  assert (Hmode : filemode.ToOSFileMode mode = inr (ObjectFS.mode o)).
  { destruct H as [H | H].
    - apply NewFile_inv in H.
      destruct H as (osMode & obj & c & Hmode & _ & _ & _ & Hstat & _).
      destruct Hstat as (_ & _ & _ & _ & <- & _). exact Hmode.
    - apply NewFileInfo_inv in H.
      destruct H as (osMode & obj & c & Hmode & _ & _ & _ & Hstat & _).
      destruct Hstat as (_ & _ & _ & _ & <- & _). exact Hmode. }
  unfold ObjectFS.Type_, ObjectFS.Mode.
  unfold filemode.ToOSFileMode in Hmode.
  destruct (Z.eqb_spec mode filemode.Dir) as [-> | _];
    [injection Hmode as <-; left; repeat split; auto |].
  destruct (Z.eqb_spec mode filemode.Submodule) as [-> | _];
    [injection Hmode as <-; left; repeat split; auto |].
  destruct (Z.eqb_spec mode filemode.Regular) as [-> | _];
    [injection Hmode as <-; right; right; left; repeat split; auto |].
  destruct (Z.eqb_spec mode filemode.Deprecated) as [-> | _];
    [injection Hmode as <-; right; right; left; repeat split; auto |].
  destruct (Z.eqb_spec mode filemode.Executable) as [-> | _];
    [injection Hmode as <-; right; right; right; repeat split; auto |].
  destruct (Z.eqb_spec mode filemode.Symlink) as [-> | _];
    [injection Hmode as <-; right; left; repeat split; auto |].
  discriminate.
Qed.

Lemma X16_Type_of_built_objects_witness :
  ((filemode.Dir = filemode.Dir \/ filemode.Dir = filemode.Submodule) /\
   ObjectFS.Type_ Demo.docsDir = fs.ModeDir /\
   Z.land (ObjectFS.Mode Demo.docsDir) fs.ModePerm = 511%Z) \/
  (filemode.Dir = filemode.Symlink /\
   ObjectFS.Type_ Demo.docsDir = fs.ModeSymlink /\
   Z.land (ObjectFS.Mode Demo.docsDir) fs.ModePerm = 511%Z) \/
  ((filemode.Dir = filemode.Regular \/ filemode.Dir = filemode.Deprecated) /\
   ObjectFS.Type_ Demo.docsDir = 0%Z /\ ObjectFS.Mode Demo.docsDir = 420%Z) \/
  (filemode.Dir = filemode.Executable /\
   ObjectFS.Type_ Demo.docsDir = 0%Z /\ ObjectFS.Mode Demo.docsDir = 493%Z).
Proof.
  apply (@X16_Type_of_built_objects 1%Z 13%Z Demo.repo "docs" filemode.Dir
                                    Demo.docsDir).
  left. reflexivity.
Defined.

(* ------------------------------------------------------------------ *)
(** ** The file-only adapter *)

Lemma Tree_File_inr s t name f :
  object.Tree_File s t name = inr f ->
  exists e,
    object.Tree_FindEntry s t name = inr e /\
    s (object.entryHash e) = inr (object.IsBlob (object.fileBlob f)) /\
    object.fileName f = name /\ object.fileMode f = object.Mode e.
Proof.
  unfold object.Tree_File.
  destruct (object.Tree_FindEntry s t name) as [err | e]; [discriminate |].
  destruct (object.GetBlob s (object.entryHash e)) as [err | b] eqn:Hb.
  - destruct (errors.Is err ErrObjectNotFound); discriminate.
  - intros [= <-]. exists e. repeat split. now apply GetBlob_inr.
Qed.

(** X17: a file the adapter of [fs.go] opens is a blob the path resolves
    to.  Its [Name] is the whole path it was opened under, its size the
    blob's, its mode the translation of the entry's mode.  Under one of
    the four file modes it has the blob's content stream and is no
    directory; under the two others (directory, submodule) it reports a
    directory and has no stream, so that [Read] and [Close] panic. *)
Theorem X17_FileFS_Open_opens_a_blob tree name f :
  outcome (FileFS.Open tree name) = inr f ->
  exists e b,
    object.Tree_FindEntry (git.Storer (FileFS.repo tree)) (FileFS.tree tree) name
    = inr e /\
    git.Storer (FileFS.repo tree) (object.entryHash e) = inr (object.IsBlob b) /\
    FileFS.Name (fst (FileFS.Stat f)) = name /\
    FileFS.Size (fst (FileFS.Stat f)) = object.Size b /\
    filemode.ToOSFileMode (object.Mode e)
    = inr (FileFS.Mode (fst (FileFS.Stat f))) /\
    (filemode.IsFile (object.Mode e) = true ->
     FileFS.IsDir (fst (FileFS.Stat f)) = false /\
     exists rd, object.Reader b = inr rd /\ FileFS.r f = Some rd) /\
    (filemode.IsFile (object.Mode e) = false ->
     FileFS.IsDir (fst (FileFS.Stat f)) = true /\ FileFS.r f = None /\
     (forall len_b, FileFS.Read f len_b = ObjectFS.Panics) /\
     FileFS.Close f = ObjectFS.Panics).
Proof.
  intros H. unfold FileFS.Open in H.
  bind_inv H. bind_inv H. bind_inv H. cbv zeta in H. bind_inv H. bind_inv H.
  apply outcome_ret_inv in H. subst f.
  rewrite outcome_call in Ha. apply Tree_File_inr in Ha.
  destruct Ha as (e & Hfind & Hblob & Hname & Hmode).
  exists e, (object.fileBlob a).
  cbn [FileFS.Stat fst FileFS.fi FileFS.Name FileFS.Size FileFS.Mode
       FileFS.IsDir FileFS.name FileFS.size FileFS.mode FileFS.isDir FileFS.r].
  rewrite Hmode in Ha0, Ha1. cbn [outcome snd] in Ha1.
  repeat split; auto.
  - unfold filemode.IsFile, filemode.ToOSFileMode in *.
    destruct (Z.eqb_spec (object.Mode e) filemode.Dir) as [He | _];
      [rewrite He in H; discriminate |].
    destruct (Z.eqb_spec (object.Mode e) filemode.Submodule) as [He | _];
      [rewrite He in H; discriminate |].
    destruct (Z.eqb_spec (object.Mode e) filemode.Regular) as [He | _];
      [injection Ha1 as <-; reflexivity |].
    destruct (Z.eqb_spec (object.Mode e) filemode.Deprecated) as [He | _];
      [injection Ha1 as <-; reflexivity |].
    destruct (Z.eqb_spec (object.Mode e) filemode.Executable) as [He | _];
      [injection Ha1 as <-; reflexivity |].
    destruct (Z.eqb_spec (object.Mode e) filemode.Symlink) as [He | _];
      [injection Ha1 as <-; reflexivity | discriminate].
  - rewrite H in Ha0. bind_inv Ha0. apply outcome_ret_inv in Ha0. subst a0.
    rewrite outcome_call in Ha. eauto.
  - unfold filemode.IsFile, filemode.ToOSFileMode in *.
    destruct (Z.eqb_spec (object.Mode e) filemode.Dir) as [He | _];
      [injection Ha1 as <-; reflexivity |].
    destruct (Z.eqb_spec (object.Mode e) filemode.Submodule) as [He | _];
      [injection Ha1 as <-; reflexivity |].
    destruct (Z.eqb_spec (object.Mode e) filemode.Regular) as [He | _];
      [discriminate |].
    destruct (Z.eqb_spec (object.Mode e) filemode.Deprecated) as [He | _];
      [discriminate |].
    destruct (Z.eqb_spec (object.Mode e) filemode.Executable) as [He | _];
      [discriminate |].
    destruct (Z.eqb_spec (object.Mode e) filemode.Symlink) as [He | _];
      discriminate.
  - rewrite H in Ha0. now apply outcome_ret_inv in Ha0.
  - intros len_b. rewrite H in Ha0. apply outcome_ret_inv in Ha0. subst a0.
    reflexivity.
  - rewrite H in Ha0. apply outcome_ret_inv in Ha0. subst a0. reflexivity.
Qed.

Lemma X17_FileFS_Open_opens_a_blob_witness :
  exists e b,
    object.Tree_FindEntry Demo.store Demo.rootTree "a.go" = inr e /\
    Demo.store (object.entryHash e) = inr (object.IsBlob b) /\
    FileFS.Name (fst (FileFS.Stat Demo.aFile)) = "a.go" /\
    FileFS.Size (fst (FileFS.Stat Demo.aFile)) = object.Size b /\
    filemode.ToOSFileMode (object.Mode e)
    = inr (FileFS.Mode (fst (FileFS.Stat Demo.aFile))) /\
    (filemode.IsFile (object.Mode e) = true ->
     FileFS.IsDir (fst (FileFS.Stat Demo.aFile)) = false /\
     exists rd, object.Reader b = inr rd /\ FileFS.r Demo.aFile = Some rd) /\
    (filemode.IsFile (object.Mode e) = false ->
     FileFS.IsDir (fst (FileFS.Stat Demo.aFile)) = true /\
     FileFS.r Demo.aFile = None /\
     (forall len_b, FileFS.Read Demo.aFile len_b = ObjectFS.Panics) /\
     FileFS.Close Demo.aFile = ObjectFS.Panics).
Proof.
  apply (@X17_FileFS_Open_opens_a_blob Demo.fileSnapshot "a.go" Demo.aFile).
  reflexivity.
Defined.

(** X18: the adapter of [fs.go] answers [object.ErrFileNotFound], after
    its one look-up call, for every path the tree walk does not resolve,
    whatever the walk's error, and for every path that resolves to an
    object that is not a blob: directories, the root among them, cannot be
    opened, and a missing path is never answered with [fs.ErrNotExist]. *)
Theorem X18_FileFS_Open_not_found tree name :
  (forall err,
      object.Tree_FindEntry (git.Storer (FileFS.repo tree)) (FileFS.tree tree)
                            name = inl err ->
      FileFS.Open tree name = ([CallTreeFile name], inl ErrFileNotFound)) /\
  (forall e obj,
      object.Tree_FindEntry (git.Storer (FileFS.repo tree)) (FileFS.tree tree)
                            name = inr e ->
      git.Storer (FileFS.repo tree) (object.entryHash e) = inr obj ->
      (forall b, obj <> object.IsBlob b) ->
      FileFS.Open tree name = ([CallTreeFile name], inl ErrFileNotFound)).
Proof.
  split.
  - intros err Hfind. unfold FileFS.Open, object.Tree_File. now rewrite Hfind.
  - intros e obj Hfind Hobj Hnot.
    unfold FileFS.Open, object.Tree_File, object.GetBlob.
    rewrite Hfind, Hobj.
    destruct obj as [c | t | b |]; try reflexivity.
    now destruct (Hnot b).
Qed.

Lemma X18_FileFS_Open_not_found_witness :
  FileFS.Open Demo.fileSnapshot "missing/path"
  = ([CallTreeFile "missing/path"], inl ErrFileNotFound) /\
  FileFS.Open Demo.fileSnapshot "docs"
  = ([CallTreeFile "docs"], inl ErrFileNotFound).
Proof.
  split.
  - apply (proj1 (X18_FileFS_Open_not_found Demo.fileSnapshot "missing/path")
                 ErrDirectoryNotFound).
    reflexivity.
  - apply (proj2 (X18_FileFS_Open_not_found Demo.fileSnapshot "docs")
                 (Demo.entry "docs" filemode.Dir 13%Z)
                 (object.IsTree Demo.docsTree)).
    + reflexivity.
    + reflexivity.
    + discriminate.
Defined.

(** X19: the heavy constructor opens a content stream only for the blob
    stored under the hash it is given, and reads a commit's tree only for
    the commit stored there: for a tree it opens nothing.  When the stream
    of the blob cannot be opened, it answers that error without walking
    the history. *)
Theorem X19_NewFile_opens_only_its_blob commit hash repo fullName mode :
  (forall blob,
      In (CallBlobReader blob)
         (calls (ObjectFS.NewFile commit hash repo fullName mode)) ->
      exists b, git.Storer repo hash = inr (object.IsBlob b) /\
                object.blobHash b = blob) /\
  (forall c,
      In (CallCommitTree c)
         (calls (ObjectFS.NewFile commit hash repo fullName mode)) ->
      exists v, git.Storer repo hash = inr (object.IsCommit v) /\
                object.Hash v = c) /\
  (forall osMode b err,
      filemode.ToOSFileMode mode = inr osMode ->
      git.Storer repo hash = inr (object.IsBlob b) ->
      object.Reader b = inl err ->
      ObjectFS.NewFile commit hash repo fullName mode
      = ([CallGetObject hash; CallBlobReader (object.blobHash b)], inl err)).
Proof.
  unfold ObjectFS.NewFile, calls, object.GetObject. cbn.
  destruct (filemode.ToOSFileMode mode) as [err | osMode]; cbn.
  { repeat split; try contradiction. discriminate. }
  destruct (git.Storer repo hash) as [err | obj]; cbn.
  { repeat split; try discriminate;
      intros x [Hx | []]; discriminate. }
  destruct obj as [v | v | v |]; cbn.
  - destruct (object.Commit_Tree (git.Storer repo) v) as [err | t]; cbn;
      [| destruct (git.Log repo _) as [err | it]; cbn;
         [| destruct (git.Next it); cbn]];
      (repeat split; [| | discriminate]);
      (intros x Hx; cbn in Hx;
       repeat (destruct Hx as [Hx | Hx]; try discriminate; try contradiction);
       injection Hx as <-; eauto).
  - destruct (git.Log repo _) as [err | it]; cbn;
      [| destruct (git.Next it); cbn];
      (repeat split; [| | discriminate]);
      (intros x Hx; cbn in Hx;
       repeat (destruct Hx as [Hx | Hx]; try discriminate; try contradiction)).
  - destruct (object.Reader v) as [err | rd] eqn:Hrd; cbn;
      [| destruct (git.Log repo _) as [err | it]; cbn;
         [| destruct (git.Next it); cbn]];
      (repeat split;
       [ | | intros osMode' b err' [= <-] [= <-] Hb; congruence]);
      (intros x Hx; cbn in Hx;
       repeat (destruct Hx as [Hx | Hx]; try discriminate; try contradiction);
       injection Hx as <-; eauto).
  - repeat split; try discriminate;
      intros x [Hx | []]; discriminate.
Qed.

(* ------------------------------------------------------------------ *)
(** ** The demo server *)

Lemma SplitN2Slash_noSlash (s : string) :
  noSlash s = true -> strings.SplitN2Slash s = [s].
Proof.
  induction s as [| c s IH]; cbn; [reflexivity |].
  destruct (Ascii.eqb c "/"); cbn; [discriminate |].
  intros H. now rewrite (IH H).
Qed.

Lemma SplitN2Slash_first (rev rest : string) :
  noSlash rev = true ->
  strings.SplitN2Slash (String.append rev (String "/" rest)) = [rev; rest].
Proof.
  induction rev as [| c rev IH]; cbn; [reflexivity |].
  destruct (Ascii.eqb c "/"); cbn; [discriminate |].
  intros H. now rewrite (IH H).
Qed.

(** X20: the first version of the demo server's handler serves a URL path
    [/tree/REV/REST], with no slash in [REV], from the snapshot of
    revision [REV] under the path [REST] (which may hold more slashes), or
    answers an internal server error with the error of [NewFS].  For a
    URL path [/tree/REV] without a second slash it builds the snapshot
    and then panics on the missing second piece. *)
Theorem X20_tree_handler_splits_the_path repo rev :
  noSlash rev = true ->
  (forall rest,
      TreeServer.handle
        repo (String.append "/tree/" (String.append rev (String "/" rest)))
      = (calls (FileFS.NewFS repo rev),
         match outcome (FileFS.NewFS repo rev) with
         | inl err => ObjectFS.Returns (TreeServer.InternalServerError err)
         | inr fs => ObjectFS.Returns (TreeServer.FileServer fs rest)
         end)) /\
  TreeServer.handle repo (String.append "/tree/" rev)
  = (calls (FileFS.NewFS repo rev),
     match outcome (FileFS.NewFS repo rev) with
     | inl err => ObjectFS.Returns (TreeServer.InternalServerError err)
     | inr fs => ObjectFS.Panics
     end).
Proof.
  intros Hrev. split.
  - intros rest. unfold TreeServer.handle.
    cbn [String.length String.append strings.sliceFrom].
    rewrite (@SplitN2Slash_first rev rest Hrev). cbn [hd].
    now destruct (FileFS.NewFS repo rev) as [t [err | fs]].
  - unfold TreeServer.handle.
    cbn [String.length String.append strings.sliceFrom].
    rewrite (@SplitN2Slash_noSlash rev Hrev). cbn [hd].
    now destruct (FileFS.NewFS repo rev) as [t [err | fs]].
Qed.

Lemma X20_tree_handler_splits_the_path_witness :
  TreeServer.handle Demo.repo "/tree/main/docs/readme.md"
  = (calls (FileFS.NewFS Demo.repo "main"),
     ObjectFS.Returns (TreeServer.FileServer Demo.fileSnapshot "docs/readme.md")) /\
  snd (TreeServer.handle Demo.repo "/tree/main") = ObjectFS.Panics.
Proof.
  destruct (@X20_tree_handler_splits_the_path Demo.repo "main" eq_refl)
    as [Hserve Hpanic].
  split.
  - exact (Hserve "docs/readme.md").
  - exact (f_equal snd Hpanic).
Defined.

Lemma X19_NewFile_opens_only_its_blob_witness :
  exists b, git.Storer Demo.repo 14%Z = inr (object.IsBlob b) /\
            object.blobHash b = 14%Z.
Proof.
  apply (proj1 (X19_NewFile_opens_only_its_blob
                  1%Z 14%Z Demo.repo "docs/readme.md" filemode.Regular)).
  right. left. reflexivity.
Defined.

Lemma X1_NewFS_snapshot_witness :
  exists c,
    git.ResolveRevision Demo.repo "main" = inr (ObjectFS.t_hash Demo.snapshot) /\
    git.Storer Demo.repo (ObjectFS.t_hash Demo.snapshot)
    = inr (object.IsCommit c) /\
    git.Storer Demo.repo (object.TreeHash c)
    = inr (object.IsTree (ObjectFS.t_tree Demo.snapshot)) /\
    ObjectFS.t_repo Demo.snapshot = Demo.repo.
Proof.
  apply (proj1 (X1_NewFS_snapshot Demo.repo "main") Demo.snapshot).
  reflexivity.
Defined.
